(** * Enterosignature Transformer: the Streamlit front end [enterosig_sl.py]

    A shallow embedding of the script and of the three helpers it defines
    ([_zip_items], [Logger], [_get_es_w] / [_transform_table]), with the
    properties the specification states about them.

    The script is glue around two libraries.  pandas' table reader and
    writer are modelled on the plain tab-separated dialect the tool
    documents; the [cvanmf] package (the reapplication core) is an interface
    ([Core]) whose members are the calls the script makes.  The display
    strings of module [text] are parameters ([Labels]). *)

From Stdlib Require Import Ascii String.
From stdpp Require Import base option list gmap strings.

Set Default Proof Using "Type".

(** ** Text helpers: [str.split] and [str.join] *)

Module Str.

Definition tab : ascii := "009"%char.
Definition newline : ascii := "010"%char.
Definition carriage_return : ascii := "013"%char.
Definition double_quote : ascii := "034"%char.

(** [s.split(sep)] for a one-character separator: always at least one field. *)
Fixpoint split_on (sep : ascii) (s : string) : list string :=
  match s with
  | EmptyString => [EmptyString]
  | String c rest =>
      if decide (c = sep) then EmptyString :: split_on sep rest
      else match split_on sep rest with
           | [] => [String c EmptyString]
           | fld :: flds => String c fld :: flds
           end
  end.

(** [sep.join(parts)]. *)
Fixpoint join (sep : string) (parts : list string) : string :=
  match parts with
  | [] => EmptyString
  | [p] => p
  | p :: rest => p +:+ sep +:+ join sep rest
  end.

(** [c in s]. *)
Fixpoint contains (c : ascii) (s : string) : bool :=
  match s with
  | EmptyString => false
  | String d rest => if decide (d = c) then true else contains c rest
  end.

Definition is_blank (s : string) : bool :=
  match s with EmptyString => true | _ => false end.

Lemma split_on_nonempty sep s : split_on sep s ≠ [].
Proof.
  destruct s as [|c rest]; simpl; [done|].
  case_decide; [done|]. by destruct (split_on sep rest).
Qed.

Lemma split_on_free sep s : contains sep s = false → split_on sep s = [s].
Proof.
  induction s as [|c rest IH]; simpl; [done|].
  case_decide; [done|]. intros Hrest. by rewrite (IH Hrest).
Qed.

Lemma split_on_app sep s t :
  contains sep s = false →
  split_on sep (s +:+ String sep t) = s :: split_on sep t.
Proof.
  induction s as [|c rest IH]; simpl.
  - intros _. by case_decide.
  - case_decide; [done|]. intros Hrest. by rewrite (IH Hrest).
Qed.

Lemma split_on_join sep parts :
  parts ≠ [] →
  Forall (λ p, contains sep p = false) parts →
  split_on sep (join (String sep EmptyString) parts) = parts.
Proof.
  intros Hne Hfree. induction Hfree as [|p rest Hp Hrest IH]; [done|].
  destruct rest as [|q rest].
  - simpl. by apply split_on_free.
  - change (join (String sep EmptyString) (p :: q :: rest))
      with (p +:+ String sep EmptyString +:+ join (String sep EmptyString) (q :: rest)).
    change (String sep EmptyString +:+ ?x) with (String sep x).
    rewrite split_on_app by done. f_equal. by apply IH.
Qed.

Lemma contains_app c s t :
  contains c (s +:+ t) = contains c s || contains c t.
Proof.
  induction s as [|d rest IH]; [done|].
  change (String d rest +:+ t) with (String d (rest +:+ t)).
  simpl. by case_decide.
Qed.

Lemma contains_join_free c sep parts :
  contains c sep = false →
  Forall (λ p, contains c p = false) parts →
  contains c (join sep parts) = false.
Proof.
  intros Hsep Hparts. induction Hparts as [|p rest Hp Hrest IH]; [done|].
  destruct rest as [|q rest]; [done|].
  change (join sep (p :: q :: rest)) with (p +:+ sep +:+ join sep (q :: rest)).
  by rewrite !contains_app, Hp, Hsep, IH.
Qed.

Lemma forallb_true {A} (f : A → bool) (l : list A) :
  forallb f l = true ↔ Forall (λ x, f x = true) l.
Proof.
  induction l as [|x l IH]; simpl.
  - split; [constructor|done].
  - rewrite andb_true_iff, Forall_cons. by rewrite IH.
Qed.

End Str.

(** ** Exceptions

    The script distinguishes one exception class, [EnteroException]
    (imported from [cvanmf.reapply]); every other class passes through its
    [except] clause. *)

Inductive exn : Type :=
  | EnteroException (msg : string)
  | OtherError (cls : string).

#[global] Instance exn_eq_dec : EqDecision exn.
Proof. solve_decision. Defined.

(** A call that returns or raises. *)
Inductive result (A : Type) : Type :=
  | Ok (a : A)
  | Raise (e : exn).
Arguments Ok {A} a.
Arguments Raise {A} e.

Definition result_bind {A B} (r : result A) (k : A → result B) : result B :=
  match r with
  | Raise e => Raise e
  | Ok a => k a
  end.

(** ** Tables: [pd.DataFrame], [read_csv] and [to_csv] *)

Module Pandas.
Import Str.

(** A table keeps the text of its labels and cells; the numeric reading of a
    cell plays no part in the script.  A missing index name is the empty
    string. *)
Record DataFrame : Type := {
  index_name : string;
  columns : list string;
  index : list string;
  cells : list (list string)
}.

#[global] Instance DataFrame_eq_dec : EqDecision DataFrame.
Proof. solve_decision. Defined.

(** [df.shape]. *)
Definition shape (df : DataFrame) : nat * nat :=
  (length (index df), length (columns df)).

(** A field the writer emits verbatim and the reader takes verbatim: it holds
    no separator, line break or quote. *)
Definition plain_field (sep : ascii) (f : string) : bool :=
  negb (contains sep f) && negb (contains newline f)
  && negb (contains carriage_return f) && negb (contains double_quote f).

Definition rectangular (df : DataFrame) : bool :=
  bool_decide (length (index df) = length (cells df))
  && forallb (λ row, bool_decide (length row = length (columns df))) (cells df).

Definition plain_table (sep : ascii) (df : DataFrame) : bool :=
  plain_field sep (index_name df)
  && forallb (plain_field sep) (columns df)
  && forallb (plain_field sep) (index df)
  && forallb (forallb (plain_field sep)) (cells df).

(** What pandas does outside the plain dialect (quoting, padding of short
    rows, renaming of repeated or empty column names) is left open: the two
    members below stand for it. *)
Class Dialect : Type := {
  to_csv_quoted : DataFrame → ascii → string;
  read_csv_irregular : string → ascii → nat → result DataFrame
}.

Section with_dialect.
Context `{Dialect}.

Definition line (sep : ascii) (fields : list string) : string :=
  join (String sep EmptyString) fields +:+ String newline EmptyString.

Definition concat_lines (ls : list string) : string :=
  foldr String.append EmptyString ls.

(** [df.to_csv(sep=sep)]: a header line (index name, then the column
    labels) and one line per row (row label, then the cells). *)
Definition to_csv (df : DataFrame) (sep : ascii) : string :=
  if rectangular df && plain_table sep df then
    concat_lines
      (line sep (index_name df :: columns df)
       :: zip_with (λ label row, line sep (label :: row)) (index df) (cells df))
  else to_csv_quoted df sep.

(** The rows the reader sees: blank lines are skipped. *)
Definition data_lines (content : string) : list string :=
  filter (λ l, is_blank l = false) (split_on newline content).

Definition regular (sep : ascii) (index_col : nat) (content : string) : bool :=
  negb (contains double_quote content)
  && negb (contains carriage_return content)
  && match data_lines content with
     | [] => false
     | header :: rows =>
         let hdr := split_on sep header in
         bool_decide (index_col < length hdr)
         && forallb (λ r, bool_decide (length (split_on sep r) = length hdr)) rows
         && forallb (λ c, negb (is_blank c)) (delete index_col hdr)
         && bool_decide (NoDup (delete index_col hdr))
     end.

(** [pd.read_csv(content, sep=sep, index_col=index_col)]: the first line
    names the columns, column [index_col] supplies the row labels, and the
    other columns keep their header as label. *)
Definition read_csv (content : string) (sep : ascii) (index_col : nat)
  : result DataFrame :=
  if regular sep index_col content then
    match data_lines content with
    | [] => Raise (OtherError "EmptyDataError")
    | header :: rows =>
        let hdr := split_on sep header in
        let body := split_on sep <$> rows in
        Ok {| index_name := hdr !!! index_col;
              columns := delete index_col hdr;
              index := (λ r, r !!! index_col) <$> body;
              cells := delete index_col <$> body |}
    end
  else read_csv_irregular content sep index_col.

(** *** Reading back what the writer wrote *)

Lemma app_assoc_string (a b c : string) : (a +:+ b) +:+ c = a +:+ (b +:+ c).
Proof.
  induction a as [|x a IH]; [done|].
  change (String x ((a +:+ b) +:+ c) = String x (a +:+ (b +:+ c))).
  f_equal. apply IH.
Qed.

Lemma split_concat_lines (ls : list string) :
  Forall (λ l, contains newline l = false) ls →
  split_on newline
    (concat_lines ((λ l, l +:+ String newline EmptyString) <$> ls))
  = ls ++ [EmptyString].
Proof.
  induction 1 as [|l ls Hl Hls IH]; [done|].
  change (concat_lines ((λ l, l +:+ String newline EmptyString) <$> l :: ls))
    with ((l +:+ String newline EmptyString)
          +:+ concat_lines ((λ l, l +:+ String newline EmptyString) <$> ls)).
  rewrite app_assoc_string.
  change (String newline EmptyString +:+ ?x) with (String newline x).
  rewrite split_on_app by done. by rewrite IH.
Qed.

Lemma data_lines_concat (ls : list string) :
  Forall (λ l, contains newline l = false ∧ is_blank l = false) ls →
  data_lines (concat_lines ((λ l, l +:+ String newline EmptyString) <$> ls))
  = ls.
Proof.
  intros Hls. unfold data_lines. rewrite split_concat_lines.
  - rewrite filter_app. simpl. rewrite app_nil_r.
    induction Hls as [|l ls [_ Hl] _ IH]; [done|].
    rewrite filter_cons_True by done. by rewrite IH.
  - eapply Forall_impl; [done|]. by intros l [? _].
Qed.

Lemma contains_concat_lines c (ls : list string) :
  Forall (λ l, contains c l = false) ls →
  contains c (concat_lines ls) = false.
Proof.
  induction 1 as [|l ls Hl _ IH]; [done|].
  change (concat_lines (l :: ls)) with (l +:+ concat_lines ls).
  by rewrite contains_app, Hl, IH.
Qed.

Lemma plain_field_spec sep f :
  plain_field sep f = true ↔
  contains sep f = false ∧ contains newline f = false
  ∧ contains carriage_return f = false ∧ contains double_quote f = false.
Proof.
  unfold plain_field. rewrite !andb_true_iff, !negb_true_iff. tauto.
Qed.

Lemma contains_singleton c d :
  c ≠ d → contains c (String d EmptyString) = false.
Proof. intros Hne. simpl. by rewrite decide_False. Qed.

Lemma join_free c sep (fields : list string) :
  sep ≠ c →
  Forall (λ f, contains c f = false) fields →
  contains c (join (String sep EmptyString) fields) = false.
Proof.
  intros Hne Hfields. apply contains_join_free; [|done].
  by apply contains_singleton.
Qed.

Lemma join_not_blank sep a b (rest : list string) :
  is_blank (join (String sep EmptyString) (a :: b :: rest)) = false.
Proof.
  change (join (String sep EmptyString) (a :: b :: rest))
    with (a +:+ String sep (join (String sep EmptyString) (b :: rest))).
  by destruct a.
Qed.

(** The lines the writer emits for a table of the plain dialect. *)
Definition rows_of (df : DataFrame) : list (list string) :=
  (index_name df :: columns df) :: zip_with cons (index df) (cells df).

Lemma to_csv_lines df sep :
  rectangular df = true → plain_table sep df = true →
  to_csv df sep =
  concat_lines ((λ l, l +:+ String newline EmptyString)
                <$> (join (String sep EmptyString) <$> rows_of df)).
Proof.
  intros Hrect Hplain. unfold to_csv. rewrite Hrect, Hplain. cbn [andb].
  unfold rows_of. rewrite !fmap_cons. unfold line at 1. do 2 f_equal.
  generalize (cells df). induction (index df) as [|i ix IH]; intros [|r rs];
    try done.
  cbn [zip_with]. rewrite !fmap_cons. by rewrite IH.
Qed.

Lemma rows_of_plain df sep :
  plain_table sep df = true →
  Forall (Forall (λ f, plain_field sep f = true)) (rows_of df).
Proof.
  unfold plain_table. rewrite !andb_true_iff.
  intros [[[Hname Hcols] Hidx] Hcells].
  apply forallb_true in Hcols, Hidx, Hcells.
  constructor; [by constructor|].
  revert Hidx Hcells. generalize (cells df).
  induction (index df) as [|i ix IH]; intros [|r rs] Hidx Hcells;
    simpl; try constructor.
  - constructor; [by inversion Hidx|].
    inversion Hcells as [|?? Hr ?]; subst. by apply forallb_true in Hr.
  - apply IH; [by inversion Hidx | by inversion Hcells].
Qed.

Lemma rows_of_width df :
  rectangular df = true →
  Forall (λ r, length r = S (length (columns df))) (rows_of df).
Proof.
  unfold rectangular. rewrite andb_true_iff, bool_decide_eq_true.
  intros [_ Hrows]. apply forallb_true in Hrows.
  constructor; [done|]. revert Hrows. generalize (cells df).
  induction (index df) as [|i ix IH]; intros [|r rs] Hrows;
    simpl; try constructor.
  - simpl. f_equal. inversion Hrows as [|?? Hr ?]; subst.
    by apply bool_decide_eq_true in Hr.
  - apply IH. by inversion Hrows.
Qed.

Lemma rows_of_body df :
  rectangular df = true →
  (λ r : list string, r !!! 0) <$> zip_with cons (index df) (cells df) = index df
  ∧ delete 0 <$> zip_with cons (index df) (cells df) = cells df.
Proof.
  unfold rectangular. rewrite andb_true_iff, bool_decide_eq_true.
  intros [Hlen _]. revert Hlen. generalize (cells df).
  induction (index df) as [|i ix IH]; intros [|r rs] Hlen; simplify_eq/=; [done|].
  destruct (IH rs) as [-> ->]; done.
Qed.

Lemma plain_field_free sep f c :
  plain_field sep f = true →
  c = newline ∨ c = carriage_return ∨ c = double_quote →
  contains c f = false.
Proof. intros (?&?&?&?)%plain_field_spec [-> | [-> | ->]]; done. Qed.

Lemma plain_field_sep sep f : plain_field sep f = true → contains sep f = false.
Proof. by intros (?&?&?&?)%plain_field_spec. Qed.

Lemma plain_row_join_free sep c (r : list string) :
  sep ≠ c →
  c = newline ∨ c = carriage_return ∨ c = double_quote →
  Forall (λ f, plain_field sep f = true) r →
  contains c (join (String sep EmptyString) r) = false.
Proof.
  intros Hne Hc Hr. apply join_free; [done|].
  eapply Forall_impl; [exact Hr|]. intros f Hf. exact (plain_field_free sep f c Hf Hc).
Qed.

Lemma plain_row_split sep (r : list string) :
  r ≠ [] →
  Forall (λ f, plain_field sep f = true) r →
  split_on sep (join (String sep EmptyString) r) = r.
Proof.
  intros Hne Hr. apply split_on_join; [done|].
  eapply Forall_impl; [exact Hr|]. intros f Hf. exact (plain_field_sep sep f Hf).
Qed.

(** Reading a written table of the plain dialect gives the table back. *)
Lemma read_csv_to_csv (df : DataFrame) (sep : ascii) :
  sep ≠ newline → sep ≠ carriage_return → sep ≠ double_quote →
  rectangular df = true → plain_table sep df = true →
  columns df ≠ [] →
  Forall (λ c, is_blank c = false) (columns df) →
  NoDup (columns df) →
  read_csv (to_csv df sep) sep 0 = Ok df.
Proof.
  intros Hnl Hcr Hdq Hrect Hplain Hcols Hnames Hdup.
  pose proof (rows_of_plain df sep Hplain) as Hfields.
  pose proof (rows_of_width df Hrect) as Hwidth.
  rewrite Forall_forall in Hfields, Hwidth.
  assert (Hwide : ∀ r, r ∈ rows_of df → ∃ a b rest, r = a :: b :: rest).
  { intros r Hr. specialize (Hwidth r Hr).
    destruct r as [|a [|b rest]]; simpl in Hwidth; [lia| |by eauto].
    destruct (columns df); [done|simpl in Hwidth; lia]. }
  assert (Hlines : data_lines (to_csv df sep)
                   = join (String sep EmptyString) <$> rows_of df).
  { rewrite to_csv_lines by done. apply data_lines_concat.
    apply Forall_fmap, Forall_forall. intros r Hr. simpl. split.
    - apply plain_row_join_free; auto.
    - destruct (Hwide r Hr) as (a & b & rest & ->). apply join_not_blank. }
  assert (Hsplit : ∀ r, r ∈ rows_of df →
                   split_on sep (join (String sep EmptyString) r) = r).
  { intros r Hr. apply plain_row_split; [|by auto].
    by destruct (Hwide r Hr) as (a & b & rest & ->). }
  assert (Hquote : ∀ c, sep ≠ c → c ≠ newline →
     (c = carriage_return ∨ c = double_quote) →
     contains c (to_csv df sep) = false).
  { intros c Hc Hcnl Hcase. rewrite to_csv_lines by done.
    apply contains_concat_lines. apply Forall_fmap, Forall_fmap, Forall_forall.
    intros r Hr. simpl. rewrite contains_app.
    rewrite plain_row_join_free by auto. simpl.
    by rewrite decide_False. }
  unfold read_csv, regular. rewrite Hlines.
  rewrite !Hquote by (done || auto).
  unfold rows_of in Hsplit, Hwidth, Hfields, Hwide |- *.
  set (hrow := index_name df :: columns df) in *.
  set (body := zip_with cons (index df) (cells df)) in *.
  assert (Hhdr : split_on sep (join (String sep EmptyString) hrow) = hrow)
    by (apply Hsplit; by left).
  assert (Hbody : split_on sep <$> (join (String sep EmptyString) <$> body)
                  = body).
  { rewrite <- list_fmap_compose. rewrite <- (list_fmap_id body) at 2.
    apply Forall_fmap_ext, Forall_forall. intros r Hr. simpl.
    apply Hsplit. by right. }
  rewrite !fmap_cons. cbv beta iota zeta. rewrite Hhdr, Hbody. subst hrow body.
  cbn [negb andb length delete list_delete lookup_total list_lookup_total].
  destruct (rows_of_body df Hrect) as [Hidx Hcells].
  rewrite Hidx, Hcells.
  assert (forallb (λ r, bool_decide (length (split_on sep r)
                                     = S (length (columns df))))
            (join (String sep EmptyString) <$> zip_with cons (index df) (cells df))
          = true) as ->.
  { apply forallb_true, Forall_fmap, Forall_forall. intros r Hr. simpl.
    assert (Hin : r ∈ (index_name df :: columns df)
                      :: zip_with cons (index df) (cells df)) by (by right).
    apply bool_decide_eq_true.
    rewrite plain_row_split; [by apply Hwidth| |by auto].
    by destruct (Hwide r Hin) as (a & b & rest & ->). }
  assert (forallb (λ c, negb (is_blank c)) (columns df) = true) as ->.
  { apply forallb_true. eapply Forall_impl; [exact Hnames|].
    intros c Hc. simpl. by rewrite Hc. }
  rewrite (bool_decide_eq_true_2 _ Hdup).
  rewrite bool_decide_eq_true_2 by lia. cbn [andb].
  by destruct df.
Qed.

End with_dialect.
End Pandas.

(** ** The reapplication core: the [cvanmf] package

    The members are the calls the script makes into the package.  A call
    returns or raises, and what it does is a function of its arguments;
    [core_transform] also gives the lines the core hands to the logger it
    was called with, in the order it hands them over. *)

Import Str Pandas.

Class Core : Type := {
  Decomposition : Type;
  Figure : Type;
  (** [cvanmf.models.five_es()]: the table every call reads. *)
  five_es : DataFrame;
  (** [files(cvanmf.data).joinpath(README.txt)]: the packaged readme. *)
  readme_txt : string;
  (** [cvanmf.reapply.transform_table(abundance, rollup, model_w,
      hard_mapping, logger)]. *)
  core_transform :
    DataFrame → bool → DataFrame → gmap string string →
    list string * result Decomposition;
  (** [d.colors = palette]. *)
  with_colors : Decomposition → gmap string string → result Decomposition;
  get_w : Decomposition → result DataFrame;
  get_h : Decomposition → result DataFrame;
  scaled : Decomposition → string → result DataFrame;
  parameters_x : Decomposition → result DataFrame;
  model_fit : Decomposition → result DataFrame;
  quality_series : Decomposition → result DataFrame;
  primary_signature : Decomposition → result DataFrame;
  representative_signatures : Decomposition → result DataFrame;
  monodominant_samples : Decomposition → result DataFrame;
  feature_mapping_to_df : Decomposition → result DataFrame;
  plot_relative_weight : Decomposition → result Figure;
  plot_modelfit : Decomposition → result Figure;
  plot_pcoa : Decomposition → result Figure
}.

(** ** The display strings: module [text]

    The script imports its labels and page texts from [text]; the theorems
    hold whatever these strings are. *)

Class Labels : Type := {
  TITLE : string;
  UPLOAD_LABEL : string;
  UPLOAD_TOOLTIP : string;
  ROLLUP_LABEL : string;
  ROLLUP_TOOLTIP : string;
  EXPANDER_UPLOAD : string;
  EXPANDER_LOG : string;
  EXPANDER_RESULTS : string;
  SUMMARY : string;
  INPUT_FORMAT : string;
  CAVEATS : string;
  DOWNLOAD_LABEL : string;
  RESULTS : string;
  WEIGHT_PLOT_TITLE : string;
  WEIGHT_PLOT_CAPTION : string;
  MODELFIT_PLOT_TITLE : string;
  PCOA_PLOT_TITLE : string
}.

(** ** What a run of the script does

    Streamlit executes the script from top to bottom on every interaction
    (a rerun; the script guards for it on lines 95-96 and speaks of reruns
    on line 51).  What outlives a run is the [st.cache_resource] and
    [st.cache_data] stores of the process and the [st.session_state] of the
    session; the module-level names ([ES_W_MATRIX], [es_log]) are bound anew
    by every run. *)

(** An in-memory zip archive: its entries, in the order they were written. *)
Abbreviation Archive := (list (string * string)).

Inductive container : Type :=
  | Page | ColUpload | ColOpts | ExpanderUpload | ExpanderLog | ExpanderResults.

Inductive plot : Type := RelativeWeight | ModelFit | PCoA.

#[global] Instance container_eq_dec : EqDecision container.
Proof. solve_decision. Defined.
#[global] Instance plot_eq_dec : EqDecision plot.
Proof. solve_decision. Defined.

Section app.
Context `{Dialect} `{Core} `{Labels}.

Inductive payload : Type :=
  | Text (s : string)
  | Fig (p : plot) (f : Figure).

(** The calls a run makes, in the order it makes them: the Streamlit
    elements it puts on the page, and the calls of the loader, the logger,
    the core and the archive writer. *)
Inductive event : Type :=
  | Markdown (c : container) (body : string) (unsafe_allow_html : bool)
  | Title (body : string)
  | Columns
  | FileUploader (c : container) (label help : string)
  | Toggle (c : container) (label : string) (value : bool) (help : string)
  | Expander (label : string) (expanded : bool)
  | Write (c : container) (p : payload)
  | DownloadButton (c : container) (label : string) (data : Archive)
      (file_name : string)
  | SetSession (key : string) (value : bool)
  | FiveEs (obj : nat)
  | LogCall (message : string) (to_screen : bool)
  | TransformTable (abundance : DataFrame) (rollup : bool) (model_w : nat)
      (hard_mapping : gmap string string)
  | ZipFile (entries : Archive).

Record World : Type := MkWorld {
  (** the tables [five_es()] has returned, by object identity *)
  heap : list DataFrame;
  (** the [st.cache_resource] slot of [_get_es_w] *)
  es_w_cache : option nat;
  (** the [st.cache_data] entries of [_zip_items] *)
  zip_cache : gmap (list (string * string)) Archive;
  (** [st.session_state] *)
  session_state : gmap string bool;
  (** [es_log.__loglines] *)
  loglines : list string;
  (** the container the enclosing [with] statement selects *)
  ctx : container
}.

Definition set_heap (f : list DataFrame → list DataFrame) (s : World) : World :=
  MkWorld (f (heap s)) (es_w_cache s) (zip_cache s) (session_state s)
    (loglines s) (ctx s).
Definition set_es_w_cache (v : option nat) (s : World) : World :=
  MkWorld (heap s) v (zip_cache s) (session_state s) (loglines s) (ctx s).
Definition set_zip_cache
    (f : gmap (list (string * string)) Archive →
         gmap (list (string * string)) Archive) (s : World) : World :=
  MkWorld (heap s) (es_w_cache s) (f (zip_cache s)) (session_state s)
    (loglines s) (ctx s).
Definition set_session_state
    (f : gmap string bool → gmap string bool) (s : World) : World :=
  MkWorld (heap s) (es_w_cache s) (zip_cache s) (f (session_state s))
    (loglines s) (ctx s).
Definition set_loglines (f : list string → list string) (s : World) : World :=
  MkWorld (heap s) (es_w_cache s) (zip_cache s) (session_state s)
    (f (loglines s)) (ctx s).
Definition set_ctx (c : container) (s : World) : World :=
  MkWorld (heap s) (es_w_cache s) (zip_cache s) (session_state s)
    (loglines s) c.

(** *** Statements: state, the calls made so far, and exceptions *)

Record Run (A : Type) : Type := MkRun {
  final : World;
  emitted : list event;
  outcome : result A
}.
Arguments MkRun {A}.
Arguments final {A}.
Arguments emitted {A}.
Arguments outcome {A}.

Definition M (A : Type) : Type := World → Run A.

(** [r] with [evs] put before the calls it made. *)
Definition prepend {A} (evs : list event) (r : Run A) : Run A :=
  match r with
  | MkRun s evs' o => MkRun s (evs ++ evs') o
  end.

(** What follows a finished statement: nothing if it raised. *)
Definition then_ {A B} (r : Run A) (k : A → M B) : Run B :=
  match r with
  | MkRun s evs (Ok a) => prepend evs (k a s)
  | MkRun s evs (Raise e) => MkRun s evs (Raise e)
  end.

Definition ret {A} (a : A) : M A := λ s, MkRun s [] (Ok a).

Definition bind {A B} (m : M A) (k : A → M B) : M B := λ s, then_ (m s) k.

Definition raise {A} (e : exn) : M A := λ s, MkRun s [] (Raise e).

Definition lift {A} (r : result A) : M A := λ s, MkRun s [] r.

Definition get : M World := λ s, MkRun s [] (Ok s).

Definition modify (f : World → World) : M unit := λ s, MkRun (f s) [] (Ok tt).

Definition emit (ev : event) : M unit := λ s, MkRun s [ev] (Ok tt).

(** [try: body / except EnteroException as err: handler(err)]: any other
    exception passes through. *)
Definition catch {A} (r : Run A) (handler : string → M A) : Run A :=
  match r with
  | MkRun s evs (Raise (EnteroException err)) => prepend evs (handler err s)
  | _ => r
  end.

Definition try_except {A} (body : M A) (handler : string → M A) : M A :=
  λ s, catch (body s) handler.

(** [with c: body]: the container is selected for the body and released on
    the way out, also when the body raises. *)
Definition release {A} (c : container) (r : Run A) : Run A :=
  match r with
  | MkRun s evs o => MkRun (set_ctx c s) evs o
  end.

Definition within {A} (c : container) (body : M A) : M A :=
  λ s, release (ctx s) (body (set_ctx c s)).

Notation "x <- m ;; k" := (bind m (λ x, k))
  (at level 100, m at next level, k at level 200, only parsing).
Notation "m ;; k" := (bind m (λ _, k))
  (at level 100, k at level 200, only parsing).

(** [for x in xs: body(x)]. *)
Fixpoint for_each {A} (xs : list A) (body : A → M unit) : M unit :=
  match xs with
  | [] => ret tt
  | x :: rest => body x ;; for_each rest body
  end.

(** *** Streamlit elements *)

Definition markdown_in (c : container) (body : string) (html : bool) : M unit :=
  emit (Markdown c body html).

Definition st_markdown (body : string) (html : bool) : M unit :=
  s <- get ;; markdown_in (ctx s) body html.

Definition st_write (p : payload) : M unit :=
  s <- get ;; emit (Write (ctx s) p).

Definition st_download_button (label : string) (data : Archive)
    (file_name : string) : M unit :=
  s <- get ;; emit (DownloadButton (ctx s) label data file_name).

(** A toggle gives its [value] until the user has switched it. *)
Definition toggle_in (c : container) (label : string) (value : bool)
    (help : string) (widget : option bool) : M bool :=
  emit (Toggle c label value help) ;; ret (default value widget).

Definition session_set (key : string) (value : bool) : M unit :=
  emit (SetSession key value) ;;
  modify (set_session_state (λ st, <[key := value]> st)).

(** *** Lines 20-31: constants *)

Definition PLOTLY_WIDTH : nat := 650.

Definition hide_streamlit_style : string :=
  String newline
   ("<style>" +:+ String newline
    ("    #root > div:nth-child(1) > div > div > div > div > section > div {padding-top: 0rem;}"
     +:+ String newline
     ("    div[data-testid=column] {valign: middle}" +:+ String newline
      ("</style>" +:+ String newline (String newline EmptyString))))).

Definition spacer_div : string :=
  "<div style=" +:+ String double_quote "height: 0.5ex"
  +:+ String double_quote ">&nbsp</div>".

(** [ES_W_MATRIX = cvanmf.models.five_es()]: the call builds a table; the
    name is bound to that object. *)
Definition load_five_es : M nat :=
  s <- get ;;
  let obj := length (heap s) in
  modify (set_heap (λ hp, hp ++ [five_es])) ;;
  emit (FiveEs obj) ;;
  ret obj.

(** Reading through a reference. *)
Definition deref (obj : nat) : M DataFrame :=
  s <- get ;;
  match heap s !! obj with
  | Some df => ret df
  | None => raise (OtherError "ReferenceError")
  end.

(** *** Lines 35-48: [_zip_items] *)

Definition writestr (z : Archive) (name contents : string) : Archive :=
  z ++ [(name, contents)].

(** The body of [_zip_items]: every item is written, then the readme. *)
Definition zip_entries (items : list (string * string)) : Archive :=
  let z := foldl (λ z item, writestr z item.1 item.2) [] items in
  writestr z "README.txt" readme_txt.

(** [@st.cache_data]: the body runs for a list of items the process has not
    packed before, and its archive is kept for the next call with that
    list. *)
Definition _zip_items (items : list (string * string)) : M Archive :=
  s <- get ;;
  match zip_cache s !! items with
  | Some zbuffer => ret zbuffer
  | None =>
      let zbuffer := zip_entries items in
      emit (ZipFile zbuffer) ;;
      modify (set_zip_cache (λ c, <[items := zbuffer]> c)) ;;
      ret zbuffer
  end.

(** *** Lines 54-73: [Logger] *)

Definition Logger_log (message : string) (to_screen : bool) : M unit :=
  emit (LogCall message to_screen) ;;
  modify (set_loglines (λ ls, ls ++ [message])) ;;
  if to_screen then st_write (Text message) else ret tt.

Definition Logger_init (today : string) : M unit :=
  modify (set_loglines (λ _, [])) ;;
  Logger_log ("Date: " +:+ today) false.

Definition Logger_to_file : M string :=
  s <- get ;; ret (join (String newline EmptyString) (loglines s)).

(** The bound method [es_log.log]: [to_screen] takes its default. *)
Definition es_log_log (message : string) : M unit := Logger_log message true.

(** *** Lines 80-89: the wrappers *)

(** [@st.cache_resource]: the first call runs the body and keeps the object
    it returns; later calls in the process give that object. *)
Definition _get_es_w (ES_W_MATRIX : nat) : M nat :=
  s <- get ;;
  match es_w_cache s with
  | Some obj => ret obj
  | None => modify (set_es_w_cache (Some ES_W_MATRIX)) ;; ret ES_W_MATRIX
  end.

(** The call of the core: it reads the basis through the reference it is
    given, hands its lines to [logger] one by one and returns or raises. *)
Definition transform_table (abundance : DataFrame) (rollup : bool)
    (model_w : nat) (hard_mapping : gmap string string)
    (logger : string → M unit) : M Decomposition :=
  emit (TransformTable abundance rollup model_w hard_mapping) ;;
  basis <- deref model_w ;;
  let '(lines, r) := core_transform abundance rollup basis hard_mapping in
  for_each lines logger ;;
  lift r.

Definition _transform_table (ES_W_MATRIX : nat) (abd : DataFrame)
    (family_rollup : option bool) : M Decomposition :=
  model_w <- _get_es_w ES_W_MATRIX ;;
  transform_table abd (default true family_rollup) model_w ∅ es_log_log.

(** *** Lines 92-196: the page *)

(** What a run finds: the date, the upload widget (the text of the uploaded
    file, if any) and the rollup toggle (unset until the user switches it). *)
Record Inputs : Type := {
  today : string;
  abd_file : option string;
  rollup_widget : option bool
}.

Definition ES_COLORS : gmap string string :=
  list_to_map [("ES_Esch", "#483838"); ("ES_Bifi", "#009E73");
               ("ES_Bact", "#E69F00"); ("ES_Prev", "#D55E00");
               ("ES_Firm", "#023e8a")].

(** Lines 146-159: the eleven tabular artifacts, under the names the script
    gives them and in the order it evaluates them. *)
Definition artifacts (transformed : Decomposition)
  : list (string * result DataFrame) :=
  [("w.tsv", get_w transformed);
   ("h.tsv", get_h transformed);
   ("w_scaled.tsv", scaled transformed "w");
   ("h_scaled.tsv", scaled transformed "h");
   ("x.tsv", parameters_x transformed);
   ("model_fit.tsv", model_fit transformed);
   ("quality_measures.tsv", quality_series transformed);
   ("primary_signatures.tsv", primary_signature transformed);
   ("representative_signatures.tsv", representative_signatures transformed);
   ("monodominant_samples.tsv", monodominant_samples transformed);
   ("taxon_mapping.tsv", feature_mapping_to_df transformed)].

(** The (name, [table.to_csv(sep=TAB)]) pairs of a list literal, evaluated
    from left to right: the first call that raises ends the evaluation. *)
Fixpoint to_items (parts : list (string * result DataFrame))
  : result (list (string * string)) :=
  match parts with
  | [] => Ok []
  | (name, table) :: rest =>
      result_bind table (λ df,
      result_bind (to_items rest) (λ items,
      Ok ((name, to_csv df tab) :: items)))
  end.

(** Lines 128-161, up to the call of [_zip_items]: the table is read and
    transformed, the palette is set, and the twelve (name, contents) pairs
    are evaluated. *)
Definition pipeline (ES_W_MATRIX : nat) (upload : string) (opt_rollup : bool)
  : M (Decomposition * list (string * string)) :=
  abd_tbl <- lift (read_csv upload tab 0) ;;
  transformed <- within ExpanderLog
    (transformed <- _transform_table ES_W_MATRIX abd_tbl (Some opt_rollup) ;;
     lift (with_colors transformed ES_COLORS)) ;;
  tables <- lift (to_items (artifacts transformed)) ;;
  log_txt <- Logger_to_file ;;
  ret (transformed, tables ++ [("log.txt", log_txt)]).

(** Lines 163-193: the download and the plots. *)
Definition show_results (transformed : Decomposition) (res_zip : Archive)
  : M unit :=
  within ExpanderResults
    (st_download_button DOWNLOAD_LABEL res_zip "apply_es_results.zip" ;;
     st_markdown RESULTS false ;;
     st_markdown WEIGHT_PLOT_TITLE false ;;
     st_markdown WEIGHT_PLOT_CAPTION false ;;
     weights <- lift (plot_relative_weight transformed) ;;
     st_write (Fig RelativeWeight weights) ;;
     st_markdown MODELFIT_PLOT_TITLE false ;;
     fit <- lift (plot_modelfit transformed) ;;
     st_write (Fig ModelFit fit) ;;
     st_markdown PCOA_PLOT_TITLE false ;;
     h <- lift (get_h transformed) ;;
     (if decide ((shape h).2 < 500) then
        pcoa <- lift (plot_pcoa transformed) ;;
        st_write (Fig PCoA pcoa)
      else ret tt) ;;
     session_set "uploaded" true).

(** Lines 121-193: the body of the [try] statement. *)
Definition try_body (ES_W_MATRIX : nat) (upload : string) (opt_rollup : bool)
  : M unit :=
  packed <- pipeline ES_W_MATRIX upload opt_rollup ;;
  res_zip <- _zip_items packed.2 ;;
  show_results packed.1 res_zip.

(** Lines 195-196: the handler. *)
Definition on_entero_exception (err : string) : M unit :=
  st_write (Text ("Unable to transform: " +:+ err)).

(** Lines 120-196. *)
Definition handle_upload (ES_W_MATRIX : nat) (upload : option string)
    (opt_rollup : bool) : M unit :=
  match upload with
  | None => ret tt
  | Some content =>
      try_except (try_body ES_W_MATRIX content opt_rollup) on_entero_exception
  end.

(** Lines 27-118: everything before the upload is looked at.  The result is
    the object bound to [ES_W_MATRIX] and the value of [opt_rollup]. *)
Definition prelude (inp : Inputs) : M (nat * bool) :=
  st_markdown hide_streamlit_style true ;;
  ES_W_MATRIX <- load_five_es ;;
  Logger_init (today inp) ;;
  s <- get ;;
  (if decide (is_Some (session_state s !! "uploaded")) then ret tt
   else session_set "uploaded" false) ;;
  emit (Title TITLE) ;;
  emit Columns ;;
  emit (FileUploader ColUpload UPLOAD_LABEL UPLOAD_TOOLTIP) ;;
  markdown_in ColOpts spacer_div true ;;
  opt_rollup <- toggle_in ColOpts ROLLUP_LABEL true ROLLUP_TOOLTIP
                  (rollup_widget inp) ;;
  let uploaded := bool_decide (is_Some (abd_file inp)) in
  emit (Expander EXPANDER_UPLOAD (negb uploaded)) ;;
  emit (Expander EXPANDER_LOG uploaded) ;;
  emit (Expander EXPANDER_RESULTS uploaded) ;;
  within ExpanderUpload
    (st_markdown SUMMARY false ;;
     st_markdown INPUT_FORMAT false ;;
     st_markdown CAVEATS false) ;;
  ret (ES_W_MATRIX, opt_rollup).

(** One run of the script. *)
Definition script (inp : Inputs) : M unit :=
  globals <- prelude inp ;;
  handle_upload globals.1 (abd_file inp) globals.2.

(** ** Running statements symbolically *)

(** What the core's lines leave behind when [es_log.log] is the logger. *)
Definition log_events (c : container) (lines : list string) : list event :=
  lines ≫= λ message, [LogCall message true; Write c (Text message)].

Lemma World_eta (s : World) :
  MkWorld (heap s) (es_w_cache s) (zip_cache s) (session_state s)
    (loglines s) (ctx s) = s.
Proof. by destruct s. Qed.

Lemma for_each_es_log (lines : list string) (s : World) :
  for_each lines es_log_log s
  = MkRun (set_loglines (λ ls, ls ++ lines) s) (log_events (ctx s) lines) (Ok tt).
Proof.
  revert s. induction lines as [|message lines IH]; intros s.
  - unfold set_loglines. simpl. by rewrite app_nil_r, World_eta.
  - simpl. unfold bind at 1.
    unfold es_log_log at 1, Logger_log, st_write, bind, emit, modify, get.
    cbn [then_ prepend final emitted outcome]. rewrite IH.
    unfold set_loglines; simpl. by rewrite <- app_assoc.
Qed.

Ltac run_unfold :=
  unfold script, prelude, handle_upload, try_body, pipeline, show_results,
       on_entero_exception, _transform_table, transform_table, _get_es_w,
       _zip_items, Logger_log, Logger_init, Logger_to_file, load_five_es, deref,
       st_markdown, st_write, st_download_button, markdown_in, toggle_in,
       session_set,
       bind, ret, raise, lift, get, modify, emit, try_except, within.

Ltac run_cbn :=
  cbn [then_ prepend catch release
       final emitted outcome
       heap es_w_cache zip_cache session_state loglines ctx
       set_heap set_es_w_cache set_zip_cache set_session_state set_loglines
       set_ctx fst snd app].

Ltac run_case :=
  match goal with
  | |- context [for_each ?lines es_log_log ?s] =>
      rewrite (for_each_es_log lines s)
  | |- context [match ?x with _ => _ end] => destruct x eqn:?
  end.

Ltac run := repeat (progress run_unfold); run_cbn; repeat (run_case; run_cbn).

(** *** The prelude *)

Definition prelude_state (inp : Inputs) (s : World) : World :=
  set_session_state
    (λ st, if decide (is_Some (st !! "uploaded")) then st
           else <["uploaded" := false]> st)
    (set_loglines (λ _, ["Date: " +:+ today inp])
       (set_heap (λ hp, hp ++ [five_es]) s)).

Definition prelude_events (inp : Inputs) (s : World) : list event :=
  [Markdown (ctx s) hide_streamlit_style true;
   FiveEs (length (heap s));
   LogCall ("Date: " +:+ today inp) false]
  ++ (if decide (is_Some (session_state s !! "uploaded")) then []
      else [SetSession "uploaded" false])
  ++ [Title TITLE; Columns;
      FileUploader ColUpload UPLOAD_LABEL UPLOAD_TOOLTIP;
      Markdown ColOpts spacer_div true;
      Toggle ColOpts ROLLUP_LABEL true ROLLUP_TOOLTIP;
      Expander EXPANDER_UPLOAD (negb (bool_decide (is_Some (abd_file inp))));
      Expander EXPANDER_LOG (bool_decide (is_Some (abd_file inp)));
      Expander EXPANDER_RESULTS (bool_decide (is_Some (abd_file inp)));
      Markdown ExpanderUpload SUMMARY false;
      Markdown ExpanderUpload INPUT_FORMAT false;
      Markdown ExpanderUpload CAVEATS false].

Lemma prelude_run (inp : Inputs) (s : World) :
  prelude inp s
  = MkRun (prelude_state inp s) (prelude_events inp s)
      (Ok (length (heap s), default true (rollup_widget inp))).
Proof.
  unfold prelude_state, prelude_events. run; f_equal.
  all: destruct s; unfold set_session_state, set_loglines, set_heap, set_ctx;
    cbn [heap es_w_cache zip_cache session_state loglines ctx] in *.
  all: by rewrite ?Heqs0.
Qed.

Lemma script_run (inp : Inputs) (s : World) :
  script inp s
  = prepend (prelude_events inp s)
      (handle_upload (length (heap s)) (abd_file inp)
         (default true (rollup_widget inp)) (prelude_state inp s)).
Proof. unfold script, bind. by rewrite prelude_run. Qed.

(** *** The archive writer *)

Lemma zip_entries_eq (items : list (string * string)) :
  zip_entries items = items ++ [("README.txt", readme_txt)].
Proof.
  unfold zip_entries, writestr. f_equal.
  assert (Hgen : ∀ z : Archive,
    foldl (λ z item, z ++ [(item.1, item.2)]) z items = z ++ items).
  { induction items as [|[name contents] items IH]; intros z; simpl.
    - by rewrite app_nil_r.
    - rewrite IH. by rewrite <- app_assoc. }
  apply (Hgen []).
Qed.

(** Every archive the process keeps was written by the body of
    [_zip_items] for the list of items it is filed under. *)
Definition zip_cache_ok (s : World) : Prop :=
  ∀ items zbuffer, zip_cache s !! items = Some zbuffer →
                   zbuffer = zip_entries items.

Lemma _zip_items_run (items : list (string * string)) (s : World) :
  zip_cache_ok s →
  ∃ evs,
    _zip_items items s
    = MkRun (set_zip_cache (λ c, <[items := zip_entries items]> c) s) evs
        (Ok (zip_entries items))
    ∧ (evs = [] ∨ evs = [ZipFile (zip_entries items)]).
Proof.
  intros Hok. run.
  - exists []. split; [|by left]. rewrite (Hok _ _ Heqo). f_equal.
    destruct s; unfold set_zip_cache; simpl in *. f_equal.
    rewrite insert_id; [done|]. by rewrite Heqo, (Hok _ _ Heqo).
  - eexists. split; [done|by right].
Qed.

Lemma _zip_items_keeps_ok (items : list (string * string)) (s : World) :
  zip_cache_ok s → zip_cache_ok (final (_zip_items items s)).
Proof.
  intros Hok. destruct (_zip_items_run items s Hok) as (evs & -> & _).
  intros items' z. cbn [final zip_cache set_zip_cache].
  destruct (decide (items = items')) as [->|Hne].
  - rewrite lookup_insert_eq. by intros [= <-].
  - rewrite lookup_insert_ne by done. apply Hok.
Qed.

Ltac world_eq :=
  repeat match goal with s : World |- _ => destruct s end;
  unfold set_heap, set_es_w_cache, set_zip_cache, set_session_state,
    set_loglines, set_ctx;
  cbn [heap es_w_cache zip_cache session_state loglines ctx] in *;
  simplify_eq; try done.

(** *** The pipeline *)

Lemma to_items_ok (parts : list (string * result DataFrame))
    (items : list (string * string)) :
  to_items parts = Ok items ↔
  Forall2 (λ part item,
             item.1 = part.1 ∧ ∃ df, part.2 = Ok df ∧ item.2 = to_csv df tab)
    parts items.
Proof.
  split.
  - revert items.
    induction parts as [|[name table] parts IH]; intros items; simpl.
    + intros [= <-]. constructor.
    + destruct table as [df|e]; simpl; [|done].
      destruct (to_items parts) as [rest|e]; simpl; [|done].
      intros [= <-]. constructor; [by eauto | by apply IH].
  - induction 1 as [|[name table] [name' contents] parts items'
                      (Hn & df & Ht & Hc) _ IH]; simpl in *; [done|].
    subst. by rewrite IH.
Qed.

(** The calls a run makes between reading the upload and packing: the call
    of the core, with the rollup flag and the basis object it is given and an
    empty hard mapping, and what the logger does with the core's lines. *)
Definition pipeline_event (obj : nat) (rollup : bool) (ev : event) : Prop :=
  match ev with
  | TransformTable _ r m hm => r = rollup ∧ m = obj ∧ hm = ∅
  | LogCall _ true => True
  | Write c (Text _) => c = ExpanderLog
  | _ => False
  end.

Lemma log_events_pipeline obj rollup (lines : list string) :
  Forall (pipeline_event obj rollup) (log_events ExpanderLog lines).
Proof.
  induction lines as [|message lines IH]; [constructor|].
  unfold log_events. simpl. by repeat constructor.
Qed.

(** Whatever its outcome, the pipeline leaves the session, the heap, the
    cached archives and the selected container as it found them. *)
Lemma pipeline_frame ES_W_MATRIX upload opt_rollup (s : World) :
  let r := pipeline ES_W_MATRIX upload opt_rollup s in
  Forall (pipeline_event (default ES_W_MATRIX (es_w_cache s)) opt_rollup)
    (emitted r)
  ∧ session_state (final r) = session_state s
  ∧ zip_cache (final r) = zip_cache s
  ∧ heap (final r) = heap s
  ∧ ctx (final r) = ctx s
  ∧ (es_w_cache (final r) = es_w_cache s
     ∨ es_w_cache (final r) = Some (default ES_W_MATRIX (es_w_cache s)))
  ∧ (emitted r = []
     ∨ es_w_cache (final r) = Some (default ES_W_MATRIX (es_w_cache s))).
Proof.
  run; rewrite ?app_nil_r; cbn [default from_option id];
    repeat split; try done; eauto; repeat constructor;
    apply log_events_pipeline.
Qed.

(** A pipeline that returns has read the upload, called the core once with
    the object [_get_es_w] gives, set the palette and evaluated the items. *)
Lemma pipeline_returns ES_W_MATRIX upload opt_rollup (s : World) t items :
  outcome (pipeline ES_W_MATRIX upload opt_rollup s) = Ok (t, items) →
  ∃ abd basis lines t0 tables,
    let obj := default ES_W_MATRIX (es_w_cache s) in
    read_csv upload tab 0 = Ok abd
    ∧ heap s !! obj = Some basis
    ∧ core_transform abd opt_rollup basis ∅ = (lines, Ok t0)
    ∧ with_colors t0 ES_COLORS = Ok t
    ∧ to_items (artifacts t) = Ok tables
    ∧ items = tables
              ++ [("log.txt",
                   join (String newline EmptyString) (loglines s ++ lines))]
    ∧ final (pipeline ES_W_MATRIX upload opt_rollup s)
      = set_loglines (λ ls, ls ++ lines) (set_es_w_cache (Some obj) s)
    ∧ emitted (pipeline ES_W_MATRIX upload opt_rollup s)
      = TransformTable abd opt_rollup obj ∅ :: log_events ExpanderLog lines.
Proof.
  run; try done.
  all: rewrite ?app_nil_r; intros [= <- <-]; do 5 eexists.
  all: cbn [default from_option id] in *; rewrite ?Heqo.
  all: cbn [default from_option id] in *.
  all: repeat split; try done.
  all: world_eq.
Qed.

(** *** The results section *)

Definition pcoa_shown (h : DataFrame) (pcoa : result Figure) : list event :=
  if decide ((shape h).2 < 500) then
    match pcoa with
    | Ok fig => [Write ExpanderResults (Fig PCoA fig)]
    | Raise _ => []
    end
  else [].

(** A results section that reaches its end has offered the download, shown
    the two plots that do not depend on the sample count, shown the PCoA
    plot when [h] has fewer than 500 columns, and set the session flag. *)
Lemma show_results_returns (t : Decomposition) (res_zip : Archive) (s : World) :
  outcome (show_results t res_zip s) = Ok tt →
  ∃ weights fit h,
    plot_relative_weight t = Ok weights
    ∧ plot_modelfit t = Ok fit
    ∧ get_h t = Ok h
    ∧ final (show_results t res_zip s)
      = set_session_state (λ st, <["uploaded" := true]> st) s
    ∧ emitted (show_results t res_zip s)
      = [DownloadButton ExpanderResults DOWNLOAD_LABEL res_zip
           "apply_es_results.zip";
         Markdown ExpanderResults RESULTS false;
         Markdown ExpanderResults WEIGHT_PLOT_TITLE false;
         Markdown ExpanderResults WEIGHT_PLOT_CAPTION false;
         Write ExpanderResults (Fig RelativeWeight weights);
         Markdown ExpanderResults MODELFIT_PLOT_TITLE false;
         Write ExpanderResults (Fig ModelFit fit);
         Markdown ExpanderResults PCOA_PLOT_TITLE false]
        ++ pcoa_shown h (plot_pcoa t)
        ++ [SetSession "uploaded" true].
Proof.
  unfold pcoa_shown. run; try done.
  all: intros _; do 3 eexists; repeat split; try done.
  all: try by world_eq.
  all: by repeat case_match.
Qed.

(** The first thing the results section does is offer the download. *)
Lemma show_results_download (t : Decomposition) (res_zip : Archive) (s : World) :
  ∃ evs,
    emitted (show_results t res_zip s)
    = DownloadButton ExpanderResults DOWNLOAD_LABEL res_zip
        "apply_es_results.zip" :: evs.
Proof. run; by eexists. Qed.

(** Only the last statement of the results section writes to the session. *)
Lemma show_results_raises (t : Decomposition) (res_zip : Archive) (s : World) e :
  outcome (show_results t res_zip s) = Raise e →
  final (show_results t res_zip s) = s
  ∧ Forall (λ ev, ∀ key value, ev ≠ SetSession key value)
      (emitted (show_results t res_zip s)).
Proof.
  run; try done.
  all: intros _; split; [world_eq | by repeat constructor].
Qed.


(** *** The [try] statement, by the outcome of the pipeline *)

Lemma _zip_items_total (items : list (string * string)) (s : World) :
  ∃ zbuffer cache evs,
    _zip_items items s = MkRun (set_zip_cache (λ _, cache) s) evs (Ok zbuffer)
    ∧ (evs = [] ∨ evs = [ZipFile zbuffer]).
Proof.
  run.
  - eexists _, (zip_cache s), []. split; [|by left]. f_equal. world_eq.
  - do 3 eexists. split; [|by right]. f_equal.
Qed.

Lemma handle_upload_returned ES_W_MATRIX upload opt_rollup (s : World) t items :
  outcome (pipeline ES_W_MATRIX upload opt_rollup s) = Ok (t, items) →
  ∃ zbuffer cache evz,
    (evz = [] ∨ evz = [ZipFile zbuffer])
    ∧ (zip_cache_ok s →
       zbuffer = zip_entries items
       ∧ cache = <[items := zip_entries items]> (zip_cache s))
    ∧ handle_upload ES_W_MATRIX (Some upload) opt_rollup s
      = prepend (emitted (pipeline ES_W_MATRIX upload opt_rollup s) ++ evz)
          (catch
             (show_results t zbuffer
                (set_zip_cache (λ _, cache)
                   (final (pipeline ES_W_MATRIX upload opt_rollup s))))
             on_entero_exception).
Proof.
  intros Hp. pose proof (pipeline_frame ES_W_MATRIX upload opt_rollup s) as Hf.
  unfold handle_upload, try_except, try_body, bind at 1.
  destruct (pipeline ES_W_MATRIX upload opt_rollup s) as [s1 evs1 o].
  cbn [outcome final emitted] in *. subst o. cbn [then_ fst snd].
  destruct Hf as (_ & _ & Hz & _).
  unfold bind.
  destruct (_zip_items_total items s1) as (z & cache & evz & Hrun & Hevz).
  exists z, cache, evz. split; [done|]. split.
  - intros Hok. assert (Hok1 : zip_cache_ok s1).
    { intros ??. rewrite Hz. apply Hok. }
    destruct (_zip_items_run items s1 Hok1) as (evz' & Hrun' & _).
    rewrite Hrun in Hrun'. injection Hrun' as Hs _ ->. split; [done|].
    by rewrite Hs, Hz.
  - rewrite Hrun. cbn [then_ prepend].
    destruct (show_results t z (set_zip_cache (λ _, cache) s1))
      as [s2 evs2 [[]|[err|cls]]]; cbn [prepend catch]; try done.
    + by rewrite app_assoc.
    + unfold on_entero_exception, st_write, bind, get, emit.
      cbn [then_ prepend]. by rewrite !app_assoc.
    + by rewrite app_assoc.
Qed.

Lemma handle_upload_entero ES_W_MATRIX upload opt_rollup (s : World) err :
  outcome (pipeline ES_W_MATRIX upload opt_rollup s)
  = Raise (EnteroException err) →
  handle_upload ES_W_MATRIX (Some upload) opt_rollup s
  = MkRun (final (pipeline ES_W_MATRIX upload opt_rollup s))
      (emitted (pipeline ES_W_MATRIX upload opt_rollup s)
       ++ [Write (ctx s) (Text ("Unable to transform: " +:+ err))])
      (Ok tt).
Proof.
  intros Hp. pose proof (pipeline_frame ES_W_MATRIX upload opt_rollup s) as Hf.
  unfold handle_upload, try_except, try_body, bind at 1.
  destruct (pipeline ES_W_MATRIX upload opt_rollup s) as [s1 evs1 o].
  cbn [outcome final emitted] in *. subst o. cbn [then_ catch].
  unfold on_entero_exception, st_write, bind, get, emit.
  cbn [then_ prepend]. destruct Hf as (_ & _ & _ & _ & -> & _). done.
Qed.

Lemma handle_upload_other ES_W_MATRIX upload opt_rollup (s : World) cls :
  outcome (pipeline ES_W_MATRIX upload opt_rollup s) = Raise (OtherError cls) →
  handle_upload ES_W_MATRIX (Some upload) opt_rollup s
  = MkRun (final (pipeline ES_W_MATRIX upload opt_rollup s))
      (emitted (pipeline ES_W_MATRIX upload opt_rollup s))
      (Raise (OtherError cls)).
Proof.
  intros Hp.
  unfold handle_upload, try_except, try_body, bind at 1.
  destruct (pipeline ES_W_MATRIX upload opt_rollup s) as [s1 evs1 o].
  cbn [outcome final emitted] in *. by subst o.
Qed.

(** The calls the results section and the handler make. *)
Definition results_event (res_zip : Archive) (ev : event) : Prop :=
  match ev with
  | DownloadButton c label data file_name =>
      c = ExpanderResults ∧ label = DOWNLOAD_LABEL ∧ data = res_zip
      ∧ file_name = "apply_es_results.zip"
  | Markdown ExpanderResults _ false
  | SetSession "uploaded" true => True
  | Write c p =>
      match p with
      | Text _ => True
      | Fig _ _ => c = ExpanderResults
      end
  | _ => False
  end.

Lemma results_frame (t : Decomposition) (res_zip : Archive) (s : World) :
  let r := catch (show_results t res_zip s) on_entero_exception in
  Forall (results_event res_zip) (emitted r)
  ∧ heap (final r) = heap s
  ∧ es_w_cache (final r) = es_w_cache s
  ∧ zip_cache (final r) = zip_cache s
  ∧ loglines (final r) = loglines s
  ∧ ctx (final r) = ctx s.
Proof. run; repeat split; try done; by repeat constructor. Qed.

(** ** The properties *)

(** A run from its first line to the point where the items are handed to
    [_zip_items]: the transformation and everything read off its result. *)
Definition transformation (inp : Inputs) (upload : string)
  : M (Decomposition * list (string * string)) :=
  globals <- prelude inp ;; pipeline globals.1 upload globals.2.

Lemma transformation_run (inp : Inputs) (upload : string) (s : World) :
  transformation inp upload s
  = prepend (prelude_events inp s)
      (pipeline (length (heap s)) upload (default true (rollup_widget inp))
         (prelude_state inp s)).
Proof. unfold transformation, bind. by rewrite prelude_run. Qed.

Lemma outcome_prepend {A} evs (r : Run A) : outcome (prepend evs r) = outcome r.
Proof. by destruct r. Qed.
Lemma emitted_prepend {A} evs (r : Run A) :
  emitted (prepend evs r) = evs ++ emitted r.
Proof. by destruct r. Qed.
Lemma final_prepend {A} evs (r : Run A) : final (prepend evs r) = final r.
Proof. by destruct r. Qed.

(** The events that stand for a result: an archive written, a download
    offered, the session flag raised. *)
Definition result_event (ev : event) : bool :=
  match ev with
  | ZipFile _ | DownloadButton _ _ _ _ | SetSession _ true => true
  | _ => false
  end.

Lemma pipeline_event_no_result obj rollup ev :
  pipeline_event obj rollup ev → result_event ev = false.
Proof. by destruct ev as [| | | | | |? []| | | |? []| |]. Qed.

Lemma prelude_events_no_result inp s :
  Forall (λ ev, result_event ev = false) (prelude_events inp s).
Proof.
  unfold prelude_events. apply Forall_app. split; [by repeat constructor|].
  apply Forall_app. split; [|by repeat constructor].
  case_decide; by repeat constructor.
Qed.

(** C1.  When the transformation of an uploaded table raises
    [EnteroException], the run ends normally with the cause written to the
    page as its last element; no archive is written, none is kept, no
    download is offered and the session flag is not raised: [uploaded] is
    what it was in the session, [False] in a fresh one. *)
Theorem entero_exception_halts_without_results
    (inp : Inputs) (s : World) (upload err : string) :
  abd_file inp = Some upload →
  outcome (transformation inp upload s) = Raise (EnteroException err) →
  let r := script inp s in
  outcome r = Ok tt
  ∧ last (emitted r)
    = Some (Write (ctx s) (Text ("Unable to transform: " +:+ err)))
  ∧ Forall (λ ev, result_event ev = false) (emitted r)
  ∧ zip_cache (final r) = zip_cache s
  ∧ session_state (final r) !! "uploaded"
    = Some (default false (session_state s !! "uploaded")).
Proof.
  intros Hfile Hraise. rewrite transformation_run, outcome_prepend in Hraise.
  cbv zeta. rewrite script_run, Hfile, (handle_upload_entero _ _ _ _ _ Hraise).
  cbn [prepend outcome emitted final].
  destruct (pipeline_frame (length (heap s)) upload
              (default true (rollup_widget inp)) (prelude_state inp s))
    as (Hevs & Hsess & Hzip & _).
  cbv zeta in *. repeat split.
  - by rewrite !app_assoc, last_snoc.
  - apply Forall_app. split; [apply prelude_events_no_result|].
    apply Forall_app. split; [|by repeat constructor].
    eapply Forall_impl; [exact Hevs|]. apply pipeline_event_no_result.
  - by rewrite Hzip.
  - rewrite Hsess. unfold prelude_state. cbn [session_state set_session_state
      set_loglines set_heap].
    case_decide as Hin.
    + destruct Hin as [b Hb]. by rewrite Hb.
    + rewrite lookup_insert_eq.
      by rewrite (proj2 (eq_None_not_Some _) Hin).
Qed.

(** *** Runs that reach the results section *)

(** The messages handed to [Logger.log], in the order of the calls. *)
Definition logged (evs : list event) : list string :=
  omap (λ ev, match ev with LogCall message _ => Some message | _ => None end)
    evs.

(** [ev] puts the plot [p] on the page. *)
Definition shows (p : plot) (ev : event) : bool :=
  match ev with
  | Write _ (Fig q _) => bool_decide (p = q)
  | _ => false
  end.

Lemma script_returned (inp : Inputs) (s : World) upload t items :
  abd_file inp = Some upload →
  outcome (transformation inp upload s) = Ok (t, items) →
  ∃ abd basis lines t0 tables zbuffer evz s2,
    let obj := default (length (heap s)) (es_w_cache s) in
    let rollup := default true (rollup_widget inp) in
    read_csv upload tab 0 = Ok abd
    ∧ (heap s ++ [five_es]) !! obj = Some basis
    ∧ core_transform abd rollup basis ∅ = (lines, Ok t0)
    ∧ with_colors t0 ES_COLORS = Ok t
    ∧ to_items (artifacts t) = Ok tables
    ∧ items = tables
              ++ [("log.txt", join (String newline EmptyString)
                                (("Date: " +:+ today inp) :: lines))]
    ∧ (zip_cache_ok s → zbuffer = zip_entries items)
    ∧ (evz = [] ∨ evz = [ZipFile zbuffer])
    ∧ emitted (script inp s)
      = prelude_events inp s
        ++ TransformTable abd rollup obj ∅ :: log_events ExpanderLog lines
        ++ evz
        ++ emitted (catch (show_results t zbuffer s2) on_entero_exception)
    ∧ final (script inp s)
      = final (catch (show_results t zbuffer s2) on_entero_exception)
    ∧ outcome (script inp s)
      = outcome (catch (show_results t zbuffer s2) on_entero_exception)
    ∧ session_state s2 = session_state (prelude_state inp s).
Proof.
  intros Hfile Hp. rewrite transformation_run, outcome_prepend in Hp.
  destruct (pipeline_returns _ _ _ _ _ _ Hp)
    as (abd & basis & lines & t0 & tables & Habd & Hbasis & Hcore & Hcol
        & Htab & Hitems & Hfin & Hevs).
  destruct (handle_upload_returned _ _ _ _ _ _ Hp)
    as (zbuffer & cache & evz & Hevz & Hz & Hrun).
  destruct (pipeline_frame (length (heap s)) upload
              (default true (rollup_widget inp)) (prelude_state inp s))
    as (_ & Hsess & _).
  exists abd, basis, lines, t0, tables, zbuffer, evz. eexists.
  cbv zeta in *. rewrite script_run, Hfile, Hrun, Hevs.
  rewrite !emitted_prepend, !final_prepend, !outcome_prepend.
  repeat split; try done.
  all: try (intros Hok; apply Hz; intros ??; apply Hok).
  all: by rewrite <- !app_assoc.
Qed.

(** A run that offers the download was handed an upload and its
    transformation returned. *)
Lemma script_offers_download (inp : Inputs) (s : World) c label data file_name :
  DownloadButton c label data file_name ∈ emitted (script inp s) →
  ∃ upload t items,
    abd_file inp = Some upload
    ∧ outcome (transformation inp upload s) = Ok (t, items).
Proof.
  intros Hin.
  assert (Hno : ∀ evs, Forall (λ ev, result_event ev = false) evs →
                       DownloadButton c label data file_name ∉ evs).
  { intros evs Hevs Hd. rewrite Forall_forall in Hevs. by apply Hevs in Hd. }
  rewrite script_run, emitted_prepend in Hin.
  apply elem_of_app in Hin as [Hin|Hin];
    [by apply (Hno _ (prelude_events_no_result inp s)) in Hin|].
  destruct (abd_file inp) as [upload|] eqn:Hfile;
    [|by apply elem_of_nil in Hin].
  exists upload. rewrite transformation_run, outcome_prepend.
  pose proof (pipeline_frame (length (heap s)) upload
              (default true (rollup_widget inp)) (prelude_state inp s))
    as (Hevs & _).
  assert (Hquiet : Forall (λ ev, result_event ev = false)
     (emitted (pipeline (length (heap s)) upload
                 (default true (rollup_widget inp)) (prelude_state inp s)))).
  { eapply Forall_impl; [exact Hevs|]. apply pipeline_event_no_result. }
  destruct (outcome (pipeline (length (heap s)) upload
              (default true (rollup_widget inp)) (prelude_state inp s)))
    as [[t items]|[err|cls]] eqn:Hp; [by eauto| |].
  - rewrite (handle_upload_entero _ _ _ _ _ Hp) in Hin. cbn [emitted] in Hin.
    apply elem_of_app in Hin as [Hin|Hin]; [by apply Hno in Hin|].
    by apply list_elem_of_singleton in Hin.
  - rewrite (handle_upload_other _ _ _ _ _ Hp) in Hin. cbn [emitted] in Hin.
    by apply Hno in Hin.
Qed.

Lemma logged_app evs1 evs2 : logged (evs1 ++ evs2) = logged evs1 ++ logged evs2.
Proof. apply omap_app. Qed.

Lemma logged_log_events c lines : logged (log_events c lines) = lines.
Proof.
  induction lines as [|message lines IH]; [done|].
  unfold log_events in *. cbn [mbind list_bind].
  change (logged ([LogCall message true; Write c (Text message)]
                  ++ (lines ≫= λ m, [LogCall m true; Write c (Text m)]))
          = message :: lines).
  rewrite logged_app, IH. done.
Qed.

Lemma logged_prelude inp s :
  logged (prelude_events inp s) = ["Date: " +:+ today inp].
Proof. unfold prelude_events. rewrite !logged_app. by case_decide. Qed.

Lemma logged_results res_zip evs :
  Forall (results_event res_zip) evs → logged evs = [].
Proof.
  induction 1 as [|ev evs Hev _ IH]; [done|].
  change (logged (ev :: evs)) with (logged ([ev] ++ evs)).
  rewrite logged_app, IH. by destruct ev.
Qed.

Lemma to_items_names parts items :
  to_items parts = Ok items → items.*1 = parts.*1.
Proof.
  intros Hok%to_items_ok.
  induction Hok as [|[??] [??] ?? [? _] _ IH]; simplify_eq/=; [done|].
  by rewrite IH.
Qed.

(** The names the script gives the twelve items it packs. *)
Definition artifact_names : list string :=
  ["w.tsv"; "h.tsv"; "w_scaled.tsv"; "h_scaled.tsv"; "x.tsv"; "model_fit.tsv";
   "quality_measures.tsv"; "primary_signatures.tsv";
   "representative_signatures.tsv"; "monodominant_samples.tsv";
   "taxon_mapping.tsv"; "log.txt"].

(** C2, as amended.  After a transformation that returns, the archive offered
    for download holds thirteen entries: the eleven tables read off the
    result ([W], [H], scaled [W], scaled [H], [X], model fit, quality series,
    primary signatures, representative signatures, monodominant samples,
    taxon mapping), each written tab-separated under its name, then the log
    text, and after these twelve the packaged readme. *)
Theorem results_package_contents (inp : Inputs) (s : World) upload t items :
  zip_cache_ok s →
  abd_file inp = Some upload →
  outcome (transformation inp upload s) = Ok (t, items) →
  DownloadButton ExpanderResults DOWNLOAD_LABEL
    (items ++ [("README.txt", readme_txt)]) "apply_es_results.zip"
    ∈ emitted (script inp s)
  ∧ items.*1 = artifact_names
  ∧ Forall2 (λ part item,
       item.1 = part.1 ∧ ∃ df, part.2 = Ok df ∧ item.2 = to_csv df tab)
      (artifacts t) (take 11 items)
  ∧ length (items ++ [("README.txt", readme_txt)]) = 13.
Proof.
  intros Hok Hfile Hp.
  destruct (script_returned inp s upload t items Hfile Hp)
    as (abd & basis & lines & t0 & tables & zbuffer & evz & s2 & _ & _ & _ & _
        & Htab & Hitems & Hz & _ & Hevs & _).
  specialize (Hz Hok). rewrite zip_entries_eq in Hz. subst zbuffer.
  pose proof (to_items_names _ _ Htab) as Hnames.
  assert (Hlen : length tables = 11).
  { by rewrite <- (length_fmap fst), Hnames. }
  repeat split.
  - rewrite Hevs. apply elem_of_app. right. apply elem_of_cons. right.
    apply elem_of_app. right. apply elem_of_app. right.
    destruct (show_results_download t (items ++ [("README.txt", readme_txt)]) s2)
      as (evs & Hd).
    destruct (show_results t (items ++ [("README.txt", readme_txt)]) s2)
      as [s3 evs3 [[]|[err|cls]]]; cbn [emitted] in Hd; subst evs3.
    + cbn [catch emitted]. by left.
    + cbn [catch]. rewrite emitted_prepend. by left.
    + cbn [catch emitted]. by left.
  - rewrite Hitems, fmap_app, Hnames. done.
  - rewrite Hitems, take_app_length' by done. by apply to_items_ok.
  - rewrite Hitems, !length_app, Hlen. done.
Qed.

Lemma for_each_silent (lines : list string) (s : World) :
  for_each lines (λ _, ret tt) s = MkRun s [] (Ok tt).
Proof.
  induction lines as [|l lines IH]; [done|].
  cbn [for_each]. unfold bind, ret in *. cbn [then_]. by rewrite IH.
Qed.

(** A core that is handed a logger that drops its lines leaves no trace in
    the log: it has no other way to it. *)
Lemma transform_table_silent abd rollup model_w hard_mapping (s : World) :
  let quiet := transform_table abd rollup model_w hard_mapping
                 (λ _, ret tt) s in
  logged (emitted quiet) = [] ∧ loglines (final quiet) = loglines s.
Proof.
  cbv zeta. unfold transform_table. repeat (progress run_unfold). run_cbn.
  destruct (heap s !! model_w) as [basis|]; run_cbn; [|by split].
  destruct (core_transform abd rollup basis hard_mapping) as [ls r].
  pose proof (for_each_silent ls s) as Hsilent. unfold ret in Hsilent.
  rewrite Hsilent. run_cbn. by split.
Qed.

(** C6.  The core is handed [es_log.log] as its logger and reaches the log
    through nothing else; the [log.txt] entry of every archive a run offers
    is the newline-join of the messages passed to [Logger.log] during the
    run, in the order of the calls: the date line, then the core's lines. *)
Theorem log_txt_joins_logged_messages
    (inp : Inputs) (s : World) c label data file_name :
  zip_cache_ok s →
  DownloadButton c label data file_name ∈ emitted (script inp s) →
  data !! 11
  = Some ("log.txt",
          join (String newline EmptyString) (logged (emitted (script inp s))))
  ∧ (∃ lines, logged (emitted (script inp s))
              = ("Date: " +:+ today inp) :: lines)
  ∧ (∀ ES_W_MATRIX abd family_rollup,
       _transform_table ES_W_MATRIX abd family_rollup
       = (model_w <- _get_es_w ES_W_MATRIX ;;
          transform_table abd (default true family_rollup) model_w ∅
            es_log_log))
  ∧ (∀ abd rollup model_w hard_mapping s',
       let quiet := transform_table abd rollup model_w hard_mapping
                      (λ _, ret tt) s' in
       logged (emitted quiet) = [] ∧ loglines (final quiet) = loglines s').
Proof.
  intros Hok Hin.
  destruct (script_offers_download _ _ _ _ _ _ Hin)
    as (upload & t & items & Hfile & Hp).
  destruct (script_returned inp s upload t items Hfile Hp)
    as (abd & basis & lines & t0 & tables & zbuffer & evz & s2 & _ & _ & _ & _
        & Htab & Hitems & Hz & Hevz & Hevs & _).
  specialize (Hz Hok). rewrite zip_entries_eq in Hz. subst zbuffer.
  destruct (results_frame t (items ++ [("README.txt", readme_txt)]) s2)
    as (Hres & _). cbv zeta in Hres.
  assert (Hlogged : logged (emitted (script inp s))
                    = ("Date: " +:+ today inp) :: lines).
  { rewrite Hevs, logged_app.
    change (TransformTable ?a ?r ?m ?h :: ?l) with ([TransformTable a r m h] ++ l).
    rewrite !logged_app, logged_prelude, logged_log_events.
    rewrite (logged_results _ _ Hres).
    destruct Hevz as [-> | ->]; by rewrite app_nil_r. }
  assert (Hdata : data = items ++ [("README.txt", readme_txt)]).
  { rewrite Hevs in Hin.
    apply elem_of_app in Hin as [Hin|Hin].
    { pose proof (prelude_events_no_result inp s) as Hno.
      rewrite Forall_forall in Hno. by apply Hno in Hin. }
    apply elem_of_cons in Hin as [Hin|Hin]; [done|].
    apply elem_of_app in Hin as [Hin|Hin].
    { pose proof (log_events_pipeline 0 true lines) as Hno.
      rewrite Forall_forall in Hno. by apply Hno in Hin. }
    apply elem_of_app in Hin as [Hin|Hin].
    { destruct Hevz as [-> | ->]; [by apply elem_of_nil in Hin|].
      by apply list_elem_of_singleton in Hin. }
    rewrite Forall_forall in Hres. by destruct (Hres _ Hin) as (_ & _ & -> & _). }
  pose proof (to_items_names _ _ Htab) as Hnames.
  assert (Hlen : length tables = 11).
  { by rewrite <- (length_fmap fst), Hnames. }
  repeat split.
  - rewrite Hdata, Hitems, Hlogged, <- app_assoc.
    rewrite lookup_app_r by lia. by rewrite Hlen.
  - by eauto.
  - apply transform_table_silent.
  - apply transform_table_silent.
Qed.

(** *** The calls of the core *)

Lemma handle_upload_prefix ES_W_MATRIX upload opt_rollup (s : World) :
  ∃ evs,
    emitted (handle_upload ES_W_MATRIX (Some upload) opt_rollup s)
    = emitted (pipeline ES_W_MATRIX upload opt_rollup s) ++ evs
    ∧ Forall (λ ev, match ev with TransformTable _ _ _ _ => False | _ => True end)
        evs.
Proof.
  destruct (outcome (pipeline ES_W_MATRIX upload opt_rollup s))
    as [[t items]|[err|cls]] eqn:Hp.
  - destruct (handle_upload_returned _ _ _ _ _ _ Hp)
      as (zbuffer & cache & evz & Hevz & _ & ->).
    rewrite emitted_prepend, <- app_assoc. eexists. split; [done|].
    apply Forall_app. split.
    + destruct Hevz as [-> | ->]; by repeat constructor.
    + eapply Forall_impl; [apply results_frame|]. by intros [].
  - rewrite (handle_upload_entero _ _ _ _ _ Hp). cbn [emitted].
    eexists. split; [done|]. by repeat constructor.
  - rewrite (handle_upload_other _ _ _ _ _ Hp). cbn [emitted].
    exists []. by rewrite app_nil_r.
Qed.

(** Every call of the core in a run carries the value of the toggle, the
    object [_get_es_w] gives and an empty hard mapping. *)
Lemma script_core_calls (inp : Inputs) (s : World)
    abd rollup model_w hard_mapping :
  TransformTable abd rollup model_w hard_mapping ∈ emitted (script inp s) →
  rollup = default true (rollup_widget inp)
  ∧ model_w = default (length (heap s)) (es_w_cache s)
  ∧ hard_mapping = ∅.
Proof.
  rewrite script_run, emitted_prepend. intros [Hin|Hin]%elem_of_app.
  { assert (Hno : Forall (λ ev, match ev with
                                | TransformTable _ _ _ _ => False
                                | _ => True
                                end) (prelude_events inp s)).
    { unfold prelude_events. case_decide; by repeat constructor. }
    rewrite Forall_forall in Hno. by apply Hno in Hin. }
  destruct (abd_file inp) as [upload|]; [|by apply elem_of_nil in Hin].
  destruct (handle_upload_prefix (length (heap s)) upload
              (default true (rollup_widget inp)) (prelude_state inp s))
    as (evs & Hevs & Hno).
  rewrite Hevs in Hin. apply elem_of_app in Hin as [Hin|Hin].
  - destruct (pipeline_frame (length (heap s)) upload
                (default true (rollup_widget inp)) (prelude_state inp s))
      as (Hcalls & _).
    rewrite Forall_forall in Hcalls. exact (Hcalls _ Hin).
  - rewrite Forall_forall in Hno. by apply Hno in Hin.
Qed.

Lemma pipeline_calls_core ES_W_MATRIX upload opt_rollup (s : World) abd :
  read_csv upload tab 0 = Ok abd →
  ∃ evs,
    emitted (pipeline ES_W_MATRIX upload opt_rollup s)
    = TransformTable abd opt_rollup (default ES_W_MATRIX (es_w_cache s)) ∅
      :: evs.
Proof.
  intros Habd. run; simplify_eq; cbn [default from_option id]; by eexists.
Qed.

(** An upload that parses is handed to the core. *)
Lemma script_calls_core (inp : Inputs) (s : World) upload abd :
  abd_file inp = Some upload →
  read_csv upload tab 0 = Ok abd →
  TransformTable abd (default true (rollup_widget inp))
    (default (length (heap s)) (es_w_cache s)) ∅
    ∈ emitted (script inp s).
Proof.
  intros Hfile Habd. rewrite script_run, emitted_prepend, Hfile.
  apply elem_of_app. right.
  destruct (handle_upload_prefix (length (heap s)) upload
              (default true (rollup_widget inp)) (prelude_state inp s))
    as (evs & -> & _).
  apply elem_of_app. left. clear evs.
  destruct (pipeline_calls_core (length (heap s)) upload
              (default true (rollup_widget inp)) (prelude_state inp s) abd Habd)
    as (evs & ->).
  by left.
Qed.

(** C3.  The page carries a rollup toggle whose initial value is [True]; the
    value of the toggle, [True] while the user has not switched it, is the
    [rollup] argument of every call of the core, and the wrapper's own
    default for it is [True] as well. *)
Theorem rollup_toggle_reaches_core (inp : Inputs) (s : World) :
  Toggle ColOpts ROLLUP_LABEL true ROLLUP_TOOLTIP ∈ emitted (script inp s)
  ∧ (∀ abd rollup model_w hard_mapping,
       TransformTable abd rollup model_w hard_mapping ∈ emitted (script inp s) →
       rollup = default true (rollup_widget inp))
  ∧ (∀ upload abd,
       abd_file inp = Some upload → read_csv upload tab 0 = Ok abd →
       ∃ model_w,
         TransformTable abd (default true (rollup_widget inp)) model_w ∅
           ∈ emitted (script inp s))
  ∧ (rollup_widget inp = None → default true (rollup_widget inp) = true)
  ∧ (∀ ES_W_MATRIX abd s',
       ∃ model_w evs,
         emitted (_transform_table ES_W_MATRIX abd None s')
         = TransformTable abd true model_w ∅ :: evs).
Proof.
  repeat split.
  - rewrite script_run, emitted_prepend. apply elem_of_app. left.
    unfold prelude_events. apply elem_of_app. right. apply elem_of_app. right.
    by repeat (first [left | right]).
  - intros abd rollup model_w hm Hin.
    by destruct (script_core_calls _ _ _ _ _ _ Hin) as (-> & _).
  - intros upload abd Hfile Habd. eexists.
    by apply (script_calls_core inp s upload).
  - by intros ->.
  - intros W abd s'. run; by do 2 eexists.
Qed.

(** Modelled from the spec: the override step of the taxonomic reconciler,
    which lives in [cvanmf.reapply] and not in the script.  The hard mapping
    is consulted first; a label it holds resolves to the taxon it gives,
    whatever the computed match is. *)
Definition resolve_taxon (hard_mapping : gmap string string)
    (computed : string → option string) (label : string) : option string :=
  match hard_mapping !! label with
  | Some target => Some target
  | None => computed label
  end.

(** C4.  A hard mapping that is supplied takes precedence over the computed
    match, and an empty one leaves every label to the computed match; every
    call of the core this program makes passes the empty mapping. *)
Theorem hard_mapping_always_empty (inp : Inputs) (s : World) :
  (∀ (hm : gmap string string) computed label target,
     hm !! label = Some target → resolve_taxon hm computed label = Some target)
  ∧ (∀ computed label, resolve_taxon ∅ computed label = computed label)
  ∧ (∀ abd rollup model_w hard_mapping,
       TransformTable abd rollup model_w hard_mapping ∈ emitted (script inp s) →
       hard_mapping = ∅
       ∧ ∀ computed label,
           resolve_taxon hard_mapping computed label = computed label).
Proof.
  split; [|split].
  - intros hm computed label target Hhm. unfold resolve_taxon. by rewrite Hhm.
  - intros computed label. unfold resolve_taxon. by rewrite lookup_empty.
  - intros abd rollup model_w hm Hin.
    destruct (script_core_calls _ _ _ _ _ _ Hin) as (_ & _ & ->).
    split; [done|]. intros computed label. unfold resolve_taxon.
    by rewrite lookup_empty.
Qed.

(** C7.  The upload is read as tab-separated text: the first field of every
    data line is the row label (the taxon), the fields after the first of
    the header line are the column labels (the samples), and the table so
    read is the one handed to the core. *)
Theorem upload_first_column_is_row_index
    (inp : Inputs) (s : World) upload header rows :
  abd_file inp = Some upload →
  regular tab 0 upload = true →
  data_lines upload = header :: rows →
  ∃ abd model_w,
    read_csv upload tab 0 = Ok abd
    ∧ TransformTable abd (default true (rollup_widget inp)) model_w ∅
        ∈ emitted (script inp s)
    ∧ index_name abd = hd EmptyString (split_on tab header)
    ∧ columns abd = tail (split_on tab header)
    ∧ index abd = (λ row, hd EmptyString (split_on tab row)) <$> rows
    ∧ cells abd = (λ row, tail (split_on tab row)) <$> rows.
Proof.
  intros Hfile Hreg Hlines.
  assert (Habd : read_csv upload tab 0
    = Ok {| index_name := hd EmptyString (split_on tab header);
            columns := tail (split_on tab header);
            index := (λ row, hd EmptyString (split_on tab row)) <$> rows;
            cells := (λ row, tail (split_on tab row)) <$> rows |}).
  { unfold read_csv. rewrite Hreg, Hlines. f_equal.
    assert (Hhd : ∀ fields : list string,
              fields !!! 0 = hd EmptyString fields) by (by intros []).
    assert (Htl : ∀ fields : list string, delete 0 fields = tail fields)
      by (by intros []).
    f_equal; rewrite ?Hhd, ?Htl; try done.
    - rewrite <- list_fmap_compose. apply list_fmap_ext. intros ? row _.
      apply Hhd.
    - rewrite <- list_fmap_compose. apply list_fmap_ext. intros ? row _.
      apply Htl. }
  eexists _, _. split; [exact Habd|].
  split; [by apply (script_calls_core inp s upload)|]. done.
Qed.

(** The same, from the writer's side: a table of the plain dialect that is
    written tab-separated and uploaded reaches the core unchanged, its index
    as row labels and its columns as column labels. *)
Corollary uploaded_table_reaches_core (inp : Inputs) (s : World) (df : DataFrame) :
  abd_file inp = Some (to_csv df tab) →
  rectangular df = true → plain_table tab df = true →
  columns df ≠ [] →
  Forall (λ c, is_blank c = false) (columns df) →
  NoDup (columns df) →
  ∃ model_w,
    TransformTable df (default true (rollup_widget inp)) model_w ∅
      ∈ emitted (script inp s).
Proof.
  intros Hfile Hrect Hplain Hcols Hnames Hdup. eexists.
  apply (script_calls_core inp s (to_csv df tab)); [done|].
  by apply read_csv_to_csv.
Qed.

(** C9.  Whatever items it is given, also none, [_zip_items] returns an
    archive that holds one entry per item, in the order given, and after
    them an entry named README.txt with the packaged readme. *)
Theorem zip_items_always_adds_readme
    (items : list (string * string)) (s : World) :
  zip_cache_ok s →
  ∃ zbuffer,
    outcome (_zip_items items s) = Ok zbuffer
    ∧ zbuffer = items ++ [("README.txt", readme_txt)]
    ∧ ("README.txt", readme_txt) ∈ zbuffer
    ∧ (∀ item, item ∈ items → item ∈ zbuffer)
    ∧ length zbuffer = S (length items).
Proof.
  intros Hok. destruct (_zip_items_run items s Hok) as (evs & -> & _).
  exists (zip_entries items). rewrite zip_entries_eq. repeat split.
  - apply elem_of_app. right. by left.
  - intros item Hitem. apply elem_of_app. by left.
  - rewrite length_app. simpl. lia.
Qed.

(** *** The plots *)

Definition plot_shown (p : plot) (evs : list event) : bool :=
  existsb (shows p) evs.

Lemma plot_shown_app p evs1 evs2 :
  plot_shown p (evs1 ++ evs2) = plot_shown p evs1 || plot_shown p evs2.
Proof. apply existsb_app. Qed.

Lemma plot_shown_prelude p inp s : plot_shown p (prelude_events inp s) = false.
Proof. unfold prelude_events. rewrite !plot_shown_app. by case_decide. Qed.

Lemma plot_shown_log_events p c lines : plot_shown p (log_events c lines) = false.
Proof. induction lines as [|message lines IH]; [done|]. exact IH. Qed.

Lemma show_results_pcoa (t : Decomposition) (res_zip : Archive) (s : World) h :
  outcome (show_results t res_zip s) = Ok tt →
  get_h t = Ok h → (shape h).2 < 500 →
  ∃ fig, plot_pcoa t = Ok fig.
Proof.
  intros Hrun Hh Hlt. revert Hrun. run; try done; simplify_eq; by eauto.
Qed.

(** A run that raises the session flag came through the whole of the
    results section. *)
Lemma script_reached_end (inp : Inputs) (s : World) :
  SetSession "uploaded" true ∈ emitted (script inp s) →
  ∃ upload t items abd lines zbuffer evz s2,
    abd_file inp = Some upload
    ∧ outcome (transformation inp upload s) = Ok (t, items)
    ∧ (evz = [] ∨ evz = [ZipFile zbuffer])
    ∧ emitted (script inp s)
      = prelude_events inp s
        ++ TransformTable abd (default true (rollup_widget inp))
             (default (length (heap s)) (es_w_cache s)) ∅
           :: log_events ExpanderLog lines
        ++ evz
        ++ emitted (show_results t zbuffer s2)
    ∧ outcome (show_results t zbuffer s2) = Ok tt.
Proof.
  intros Hin.
  assert (Hno : ∀ evs, Forall (λ ev, result_event ev = false) evs →
                       SetSession "uploaded" true ∉ evs).
  { intros evs Hevs Hd. rewrite Forall_forall in Hevs. by apply Hevs in Hd. }
  assert (Hup : ∃ upload t items, abd_file inp = Some upload
                  ∧ outcome (transformation inp upload s) = Ok (t, items)).
  { rewrite script_run, emitted_prepend in Hin.
    apply elem_of_app in Hin as [Hin|Hin];
      [by apply (Hno _ (prelude_events_no_result inp s)) in Hin|].
    destruct (abd_file inp) as [upload|] eqn:Hfile;
      [|by apply elem_of_nil in Hin].
    exists upload. rewrite transformation_run, outcome_prepend.
    pose proof (pipeline_frame (length (heap s)) upload
                (default true (rollup_widget inp)) (prelude_state inp s))
      as (Hevs & _).
    assert (Hquiet : Forall (λ ev, result_event ev = false)
       (emitted (pipeline (length (heap s)) upload
                   (default true (rollup_widget inp)) (prelude_state inp s)))).
    { eapply Forall_impl; [exact Hevs|]. apply pipeline_event_no_result. }
    destruct (outcome (pipeline (length (heap s)) upload
                (default true (rollup_widget inp)) (prelude_state inp s)))
      as [[t items]|[err|cls]] eqn:Hp; [by eauto| |].
    - rewrite (handle_upload_entero _ _ _ _ _ Hp) in Hin. cbn [emitted] in Hin.
      apply elem_of_app in Hin as [Hin|Hin]; [by apply Hno in Hin|].
      by apply list_elem_of_singleton in Hin.
    - rewrite (handle_upload_other _ _ _ _ _ Hp) in Hin. cbn [emitted] in Hin.
      by apply Hno in Hin. }
  destruct Hup as (upload & t & items & Hfile & Hp).
  destruct (script_returned inp s upload t items Hfile Hp)
    as (abd & basis & lines & t0 & tables & zbuffer & evz & s2 & _ & _ & _ & _
        & _ & _ & _ & Hevz & Hevs & _).
  exists upload, t, items, abd, lines, zbuffer, evz, s2.
  rewrite Hevs in Hin |- *.
  apply elem_of_app in Hin as [Hin|Hin];
    [by apply (Hno _ (prelude_events_no_result inp s)) in Hin|].
  apply elem_of_cons in Hin as [Hin|Hin]; [done|].
  apply elem_of_app in Hin as [Hin|Hin].
  { pose proof (log_events_pipeline 0 true lines) as Hlog.
    rewrite Forall_forall in Hlog. by apply Hlog in Hin. }
  apply elem_of_app in Hin as [Hin|Hin].
  { destruct Hevz as [-> | ->]; [by apply elem_of_nil in Hin|].
    by apply list_elem_of_singleton in Hin. }
  destruct (outcome (show_results t zbuffer s2)) as [[]|e] eqn:Hshow.
  - destruct (show_results t zbuffer s2) as [s3 evs3 o].
    cbn [outcome] in Hshow. subst o. by cbn [catch emitted].
  - exfalso. destruct (show_results_raises t zbuffer s2 e Hshow) as (_ & Hnone).
    destruct (show_results t zbuffer s2) as [s3 evs3 o].
    cbn [outcome emitted] in *. subst o. rewrite Forall_forall in Hnone.
    destruct e as [err|cls]; cbn [catch] in Hin.
    + unfold on_entero_exception, st_write, bind, get, emit in Hin.
      cbn [then_ prepend emitted] in Hin.
      apply elem_of_app in Hin as [Hin|Hin]; [by eapply Hnone|].
      by apply list_elem_of_singleton in Hin.
    + cbn [emitted] in Hin. by eapply Hnone.
Qed.

(** C10.  In a run that comes through the results section, the PCoA plot is
    put on the page exactly when the weight matrix [h] has fewer than 500
    columns (the comment beside the test says 100); the relative-weight plot
    and the model-fit plot are on the page whatever the number of columns. *)
Theorem pcoa_plot_below_500_samples (inp : Inputs) (s : World) :
  SetSession "uploaded" true ∈ emitted (script inp s) →
  ∃ upload t items h,
    abd_file inp = Some upload
    ∧ outcome (transformation inp upload s) = Ok (t, items)
    ∧ get_h t = Ok h
    ∧ (plot_shown PCoA (emitted (script inp s)) = true ↔ (shape h).2 < 500)
    ∧ plot_shown RelativeWeight (emitted (script inp s)) = true
    ∧ plot_shown ModelFit (emitted (script inp s)) = true.
Proof.
  intros Hend.
  destruct (script_reached_end inp s Hend)
    as (upload & t & items & abd & lines & zbuffer & evz & s2 & Hfile & Hp
        & Hevz & Hevs & Hshow).
  destruct (show_results_returns t zbuffer s2 Hshow)
    as (weights & fit & h & Hweights & Hfit & Hh & _ & Hres).
  exists upload, t, items, h. rewrite Hevs, Hres.
  assert (Hz : ∀ p, plot_shown p evz = false)
    by (intros p; by destruct Hevz as [-> | ->]).
  change (TransformTable ?a ?r ?m ?hm :: ?l) with ([TransformTable a r m hm] ++ l).
  rewrite !plot_shown_app, !plot_shown_prelude, !plot_shown_log_events, !Hz.
  repeat split; try done.
  - unfold pcoa_shown. case_decide; [done|]. intros Hfalse.
    cbn in Hfalse. done.
  - intros Hlt. unfold pcoa_shown. rewrite decide_True by done.
    destruct (show_results_pcoa t zbuffer s2 h Hshow Hh Hlt) as (fig & ->).
    done.
Qed.

(** ** The process: reruns and sessions *)

Record Request : Type := {
  session : nat;
  inputs : Inputs
}.

(** What the process keeps between runs: the heap and the two caches (in
    [process]) and the state of every session. *)
Record Server : Type := MkServer {
  process : World;
  sessions : gmap nat (gmap string bool)
}.

Definition boot : Server := MkServer (MkWorld [] None ∅ ∅ [] Page) ∅.

(** One run: the script is executed from its first line with the state of
    the session that asked for it. *)
Definition serve (rq : Request) (srv : Server) : Server * list event :=
  let s := set_session_state
             (λ _, default ∅ (sessions srv !! session rq)) (process srv) in
  let r := script (inputs rq) s in
  (MkServer (final r)
     (<[session rq := session_state (final r)]> (sessions srv)),
   emitted r).

Fixpoint serve_all (rqs : list Request) (srv : Server) : Server * list event :=
  match rqs with
  | [] => (srv, [])
  | rq :: rest =>
      let first := serve rq srv in
      let others := serve_all rest first.1 in
      (others.1, first.2 ++ others.2)
  end.

(** The calls of the loader among the calls of a run. *)
Definition loads (evs : list event) : list nat :=
  omap (λ ev, match ev with FiveEs obj => Some obj | _ => None end) evs.

Lemma loads_none (evs : list event) :
  Forall (λ ev, match ev with FiveEs _ => False | _ => True end) evs →
  loads evs = [].
Proof.
  induction 1 as [|ev evs Hev _ IH]; [done|]. destruct ev; try done; exact IH.
Qed.

Lemma loads_app evs1 evs2 : loads (evs1 ++ evs2) = loads evs1 ++ loads evs2.
Proof. apply omap_app. Qed.

Lemma handle_upload_frame ES_W_MATRIX upload opt_rollup (s : World) :
  let r := handle_upload ES_W_MATRIX upload opt_rollup s in
  let obj := default ES_W_MATRIX (es_w_cache s) in
  heap (final r) = heap s
  ∧ (es_w_cache (final r) = es_w_cache s ∨ es_w_cache (final r) = Some obj)
  ∧ (∀ a rr m hm, TransformTable a rr m hm ∈ emitted r →
       m = obj ∧ es_w_cache (final r) = Some obj)
  ∧ (zip_cache_ok s → zip_cache_ok (final r))
  ∧ loads (emitted r) = [].
Proof.
  cbv zeta. destruct upload as [upload|].
  2: { cbn [handle_upload]. unfold ret. cbn [final emitted].
       split; [done|]. split; [by left|].
       split; [intros ???? Hin; by apply elem_of_nil in Hin|]. by split. }
  pose proof (pipeline_frame ES_W_MATRIX upload opt_rollup s)
    as (Hcalls & _ & Hzip & Hheap & _ & Hcache & Hcalled).
  cbv zeta in *.
  assert (Hloads : loads (emitted (pipeline ES_W_MATRIX upload opt_rollup s)) = []).
  { apply loads_none. eapply Forall_impl; [exact Hcalls|]. by intros []. }
  assert (Hm : ∀ a rr m hm,
    TransformTable a rr m hm ∈ emitted (pipeline ES_W_MATRIX upload opt_rollup s) →
    m = default ES_W_MATRIX (es_w_cache s)).
  { intros a rr m hm Hin. rewrite Forall_forall in Hcalls.
    by destruct (Hcalls _ Hin) as (_ & -> & _). }
  destruct (handle_upload_prefix ES_W_MATRIX upload opt_rollup s)
    as (evs & Hevs & Hno).
  assert (Hin_p : ∀ a rr m hm,
    TransformTable a rr m hm
      ∈ emitted (handle_upload ES_W_MATRIX (Some upload) opt_rollup s) →
    TransformTable a rr m hm
      ∈ emitted (pipeline ES_W_MATRIX upload opt_rollup s)).
  { intros a rr m hm. rewrite Hevs. intros [Hin|Hin]%elem_of_app; [done|].
    rewrite Forall_forall in Hno. by apply Hno in Hin. }
  assert (Hcalled' : ∀ a rr m hm,
    TransformTable a rr m hm ∈ emitted (pipeline ES_W_MATRIX upload opt_rollup s) →
    es_w_cache (final (pipeline ES_W_MATRIX upload opt_rollup s))
    = Some (default ES_W_MATRIX (es_w_cache s))).
  { intros a rr m hm Hin. destruct Hcalled as [Hnil|Hc]; [|done].
    rewrite Hnil in Hin. by apply elem_of_nil in Hin. }
  destruct (outcome (pipeline ES_W_MATRIX upload opt_rollup s))
    as [[t items]|[err|cls]] eqn:Hp.
  - destruct (handle_upload_returned _ _ _ _ _ _ Hp)
      as (zbuffer & cache & evz & Hevz & Hz & Hrun).
    destruct (results_frame t zbuffer
                (set_zip_cache (λ _, cache)
                   (final (pipeline ES_W_MATRIX upload opt_rollup s))))
      as (Hres & Hheap' & Hcache' & Hzip' & _).
    destruct (pipeline_returns _ _ _ _ _ _ Hp)
      as (abd & basis & lines & t0 & tables & _ & _ & _ & _ & _ & _ & Hfin & _).
    cbv zeta in *. rewrite Hrun, final_prepend, emitted_prepend.
    unfold zip_cache_ok at 2. rewrite Hheap', Hcache', Hzip'.
    cbn [heap es_w_cache zip_cache set_zip_cache].
    assert (Hsome : es_w_cache (final (pipeline ES_W_MATRIX upload opt_rollup s))
                    = Some (default ES_W_MATRIX (es_w_cache s)))
      by (by rewrite Hfin).
    split; [done|]. split; [by right|]. split; [|split].
    + intros a rr m hm Hin. split; [|done].
      apply (Hm a rr m hm), Hin_p. by rewrite Hrun, emitted_prepend.
    + intros Hok. destruct (Hz Hok) as (_ & ->).
      intros items' z. destruct (decide (items = items')) as [->|Hne].
      * rewrite lookup_insert_eq. by intros [= <-].
      * rewrite lookup_insert_ne by done. apply Hok.
    + rewrite !loads_app, Hloads.
      assert (loads evz = []) as -> by (by destruct Hevz as [-> | ->]).
      apply loads_none. eapply Forall_impl; [exact Hres|]. by intros [].
  - rewrite (handle_upload_entero _ _ _ _ _ Hp) in *. cbn [final emitted] in *.
    split; [done|]. split; [done|]. split; [|split].
    + intros a rr m hm Hin%Hin_p. split; [by apply (Hm a rr m hm)|].
      by apply (Hcalled' a rr m hm).
    + intros Hok ??. rewrite Hzip. apply Hok.
    + by rewrite loads_app, Hloads.
  - rewrite (handle_upload_other _ _ _ _ _ Hp) in *. cbn [final emitted] in *.
    split; [done|]. split; [done|]. split; [|split]; [| |done].
    + intros a rr m hm Hin. split; [by apply (Hm a rr m hm)|].
      by apply (Hcalled' a rr m hm).
    + intros Hok ??. rewrite Hzip. apply Hok.
Qed.

(** A run loads the basis once, as its second step; the calls of the core
    it makes get the object the cached accessor gives. *)
Lemma script_frame (inp : Inputs) (s : World) :
  let r := script inp s in
  let obj := default (length (heap s)) (es_w_cache s) in
  heap (final r) = heap s ++ [five_es]
  ∧ (es_w_cache (final r) = es_w_cache s ∨ es_w_cache (final r) = Some obj)
  ∧ (∀ a rr m hm, TransformTable a rr m hm ∈ emitted r →
       m = obj ∧ es_w_cache (final r) = Some obj)
  ∧ (zip_cache_ok s → zip_cache_ok (final r))
  ∧ loads (emitted r) = [length (heap s)].
Proof.
  cbv zeta. rewrite script_run, final_prepend, emitted_prepend.
  destruct (handle_upload_frame (length (heap s)) (abd_file inp)
              (default true (rollup_widget inp)) (prelude_state inp s))
    as (Hheap & Hcache & Hcalls & Hzip & Hloads).
  cbv zeta in *. split; [done|]. split; [done|]. split; [|split]; [|done|].
  - intros a rr m hm [Hin|Hin]%elem_of_app; [|by apply (Hcalls a rr m hm)].
    exfalso.
    assert (Hno : Forall (λ ev, match ev with
                                | TransformTable _ _ _ _ => False
                                | _ => True
                                end) (prelude_events inp s)).
    { unfold prelude_events. case_decide; by repeat constructor. }
    rewrite Forall_forall in Hno. by apply Hno in Hin.
  - rewrite loads_app, Hloads, app_nil_r.
    unfold prelude_events. rewrite !loads_app. by case_decide.
Qed.

(** What holds of the process after any number of runs: every table on the
    heap is the basis as loaded, the cached accessor points into the heap,
    and the cached archives are what [_zip_items] wrote. *)
Definition server_ok (srv : Server) : Prop :=
  Forall (λ df, df = five_es) (heap (process srv))
  ∧ zip_cache_ok (process srv)
  ∧ (∀ obj, es_w_cache (process srv) = Some obj →
            obj < length (heap (process srv))).

Lemma boot_ok : server_ok boot.
Proof.
  split; [constructor|]. split; [|done].
  intros items z Hin. unfold boot in Hin. cbn [process zip_cache] in Hin.
  by rewrite lookup_empty in Hin.
Qed.

Lemma serve_frame (rq : Request) (srv : Server) :
  server_ok srv →
  let srv' := (serve rq srv).1 in
  let evs := (serve rq srv).2 in
  server_ok srv'
  ∧ heap (process srv') = heap (process srv) ++ [five_es]
  ∧ (∀ obj, es_w_cache (process srv) = Some obj →
            es_w_cache (process srv') = Some obj)
  ∧ (∀ obj, es_w_cache (process srv') = Some obj →
            es_w_cache (process srv) = Some obj ∨ obj ∈ loads evs)
  ∧ (∀ a r m hm, TransformTable a r m hm ∈ evs →
                 es_w_cache (process srv') = Some m)
  ∧ loads evs = [length (heap (process srv))].
Proof.
  intros (Hheap & Hzip & Hcache). cbv zeta. unfold serve. cbn [fst snd process].
  set (s := set_session_state _ (process srv)).
  destruct (script_frame (inputs rq) s) as (Hh & Hc & Hcalls & Hz & Hloads).
  cbv zeta in *.
  change (heap s) with (heap (process srv)) in *.
  change (es_w_cache s) with (es_w_cache (process srv)) in *.
  assert (Hkeep : ∀ obj, es_w_cache (process srv) = Some obj →
                         es_w_cache (final (script (inputs rq) s)) = Some obj).
  { intros obj Hobj. destruct Hc as [-> | ->]; [done|]. by rewrite Hobj. }
  split; [|split; [done|split; [done|split; [|split; [|done]]]]].
  - split; [|split].
    + cbn [process]. rewrite Hh. apply Forall_app. split; [done|].
      by repeat constructor.
    + apply Hz. intros ??. apply Hzip.
    + cbn [process]. intros obj Hobj. rewrite Hh, length_app. simpl.
      destruct Hc as [Hc|Hc]; rewrite Hc in Hobj.
      * apply Hcache in Hobj. lia.
      * injection Hobj as <-. destruct (es_w_cache (process srv)) as [o|] eqn:Ho.
        -- specialize (Hcache o eq_refl). simpl. lia.
        -- simpl. lia.
  - intros obj Hobj. destruct Hc as [Hc|Hc]; rewrite Hc in Hobj; [by left|].
    injection Hobj as <-. destruct (es_w_cache (process srv)) as [o|] eqn:Ho.
    + by left.
    + right. rewrite Hloads. simpl. by left.
  - intros a r m hm Hin. by destruct (Hcalls a r m hm Hin) as (-> & ->).
Qed.

Lemma serve_all_app (rqs1 rqs2 : list Request) (srv : Server) :
  serve_all (rqs1 ++ rqs2) srv
  = ((serve_all rqs2 (serve_all rqs1 srv).1).1,
     (serve_all rqs1 srv).2 ++ (serve_all rqs2 (serve_all rqs1 srv).1).2).
Proof.
  revert srv. induction rqs1 as [|rq rqs1 IH]; intros srv.
  - simpl. by destruct (serve_all rqs2 srv).
  - cbn [app serve_all fst snd]. rewrite IH. cbn [fst snd].
    by rewrite app_assoc.
Qed.

Lemma serve_all_frame (rqs : list Request) (srv : Server) :
  server_ok srv →
  let srv' := (serve_all rqs srv).1 in
  let evs := (serve_all rqs srv).2 in
  server_ok srv'
  ∧ (∃ more, heap (process srv') = heap (process srv) ++ more)
  ∧ (∀ obj, es_w_cache (process srv) = Some obj →
            es_w_cache (process srv') = Some obj)
  ∧ (∀ obj, es_w_cache (process srv') = Some obj →
            es_w_cache (process srv) = Some obj ∨ obj ∈ loads evs)
  ∧ (∀ a r m hm, TransformTable a r m hm ∈ evs →
                 es_w_cache (process srv') = Some m)
  ∧ length (loads evs) = length rqs.
Proof.
  revert srv. induction rqs as [|rq rqs IH]; intros srv Hok; cbv zeta.
  - cbn [serve_all fst snd]. split; [done|]. split; [by exists []; rewrite app_nil_r|].
    split; [done|]. split; [by left|]. split; [|done].
    intros ???? Hin. by apply elem_of_nil in Hin.
  - cbn [serve_all fst snd].
    destruct (serve_frame rq srv Hok) as (Hok1 & Hh1 & Hk1 & Hn1 & Hc1 & Hl1).
    destruct (IH _ Hok1) as (Hok2 & (more & Hh2) & Hk2 & Hn2 & Hc2 & Hl2).
    cbv zeta in *.
    split; [done|]. split; [|split; [|split; [|split]]].
    + exists ([five_es] ++ more). by rewrite Hh2, Hh1, <- app_assoc.
    + intros obj Hobj. by apply Hk2, Hk1.
    + intros obj Hobj. rewrite loads_app.
      destruct (Hn2 obj Hobj) as [Hobj1|Hin].
      * destruct (Hn1 obj Hobj1) as [?|Hin]; [by left|].
        right. apply elem_of_app. by left.
      * right. apply elem_of_app. by right.
    + intros a r m hm [Hin|Hin]%elem_of_app.
      * by apply Hk2, (Hc1 a r m hm).
      * by apply (Hc2 a r m hm).
    + rewrite loads_app, length_app, Hl1, Hl2. done.
Qed.

(** C5, as amended.  Over any number of runs, in any sessions, every call
    of the core is handed one and the same matrix object: the object that a
    run of the script loaded and that the first call of the cached accessor
    returned.  No run changes a matrix once it is loaded: the heap only
    grows, and every table on it is the basis as the loader reads it. *)
Theorem basis_is_one_shared_object (rqs : list Request) :
  let srv := (serve_all rqs boot).1 in
  let evs := (serve_all rqs boot).2 in
  (∀ a1 r1 m1 h1 a2 r2 m2 h2,
     TransformTable a1 r1 m1 h1 ∈ evs → TransformTable a2 r2 m2 h2 ∈ evs →
     m1 = m2)
  ∧ (∀ a r m h, TransformTable a r m h ∈ evs →
       m ∈ loads evs ∧ heap (process srv) !! m = Some five_es)
  ∧ Forall (λ df, df = five_es) (heap (process srv))
  ∧ (∀ later, ∃ more,
       heap (process (serve_all (rqs ++ later) boot).1)
       = heap (process srv) ++ more).
Proof.
  destruct (serve_all_frame rqs boot boot_ok)
    as ((Hheap & _ & Hcache) & _ & _ & Hnew & Hcalls & _).
  cbv zeta in *. split; [|split; [|split]].
  - intros a1 r1 m1 h1 a2 r2 m2 h2 Hfst%Hcalls Hsnd%Hcalls.
    rewrite Hfst in Hsnd. by injection Hsnd.
  - intros a r m h Hin%Hcalls. split.
    + by destruct (Hnew m Hin) as [?|?].
    + specialize (Hcache m Hin).
      destruct (lookup_lt_is_Some_2 _ _ Hcache) as [df Hdf].
      rewrite Hdf. f_equal. rewrite Forall_forall in Hheap.
      apply Hheap. by eapply list_elem_of_lookup_2.
  - done.
  - intros later. rewrite serve_all_app. cbn [fst].
    destruct (serve_all_frame rqs boot boot_ok) as (Hok & _).
    by destruct (serve_all_frame later _ Hok) as (_ & Hmore & _).
Qed.

(** Every run calls the loader once: after [n] runs the process has loaded
    the basis [n] times. *)
Lemma loads_once_per_run (rqs : list Request) :
  length (loads (serve_all rqs boot).2) = length rqs.
Proof. by destruct (serve_all_frame rqs boot boot_ok) as (_ & _ & _ & _ & _ & ?). Qed.

(** ** Further properties of the script *)

(** *** Exceptions the [except] clause does not name *)

(** X1.  The [except] clause names [EnteroException] only.  An exception of
    any other class raised before packing ends the run there: the handler
    writes nothing, the exception is the outcome of the run, and there is no
    archive, no download and no change of the session flag. *)
Theorem other_exception_escapes
    (inp : Inputs) (s : World) (upload cls : string) :
  abd_file inp = Some upload →
  outcome (transformation inp upload s) = Raise (OtherError cls) →
  let r := script inp s in
  outcome r = Raise (OtherError cls)
  ∧ emitted r = emitted (transformation inp upload s)
  ∧ Forall (λ ev, result_event ev = false) (emitted r)
  ∧ session_state (final r) !! "uploaded"
    = Some (default false (session_state s !! "uploaded")).
Proof.
  intros Hfile Hraise. rewrite transformation_run in *.
  rewrite outcome_prepend in Hraise.
  cbv zeta. rewrite script_run, Hfile, (handle_upload_other _ _ _ _ _ Hraise).
  destruct (pipeline_frame (length (heap s)) upload
              (default true (rollup_widget inp)) (prelude_state inp s))
    as (Hevs & Hsess & _).
  cbv zeta in *.
  destruct (pipeline (length (heap s)) upload
              (default true (rollup_widget inp)) (prelude_state inp s))
    as [s1 evs1 o1] eqn:Hp.
  cbn [prepend outcome emitted final] in *. subst o1.
  split; [done|]. split; [done|]. split.
  - apply Forall_app. split; [apply prelude_events_no_result|].
    eapply Forall_impl; [exact Hevs|]. apply pipeline_event_no_result.
  - rewrite Hsess. unfold prelude_state. cbn [session_state set_session_state
      set_loglines set_heap].
    case_decide as Hin.
    + destruct Hin as [b Hb]. by rewrite Hb.
    + rewrite lookup_insert_eq.
      by rewrite (proj2 (eq_None_not_Some _) Hin).
Qed.


(** *** The shape of a run *)

(** The calls a pipeline makes: none when the upload cannot be read, else
    the call of the core followed by what the logger does with the lines the
    core handed over before it returned or raised. *)
Lemma pipeline_shape ES_W_MATRIX upload opt_rollup (s : World) :
  (emitted (pipeline ES_W_MATRIX upload opt_rollup s) = []
   ∧ ∃ e, read_csv upload tab 0 = Raise e)
  ∨ ∃ abd lines,
      read_csv upload tab 0 = Ok abd
      ∧ emitted (pipeline ES_W_MATRIX upload opt_rollup s)
        = TransformTable abd opt_rollup
            (default ES_W_MATRIX (es_w_cache s)) ∅
          :: log_events ExpanderLog lines.
Proof.
  run; rewrite ?app_nil_r; cbn [default from_option id];
    first [ left; split; [done|by eauto]
          | right; eexists _, _; split; [done|reflexivity]
          | right; eexists _, []; split; [done|reflexivity] ].
Qed.

(** The calls that follow the pipeline: the archive writer, the elements of
    the results section, and the handler's message in the container the
    [try] statement stands in. *)
Definition closing_event (c0 : container) (ev : event) : Prop :=
  match ev with
  | ZipFile _ | SetSession "uploaded" true => True
  | DownloadButton c _ _ _ | Markdown c _ false => c = ExpanderResults
  | Write c p =>
      match p with
      | Text _ => c = c0
      | Fig _ _ => c = ExpanderResults
      end
  | _ => False
  end.

Lemma results_closing (t : Decomposition) (res_zip : Archive) (s : World) :
  Forall (closing_event (ctx s))
    (emitted (catch (show_results t res_zip s) on_entero_exception)).
Proof. run; by repeat constructor. Qed.

Lemma handle_upload_shape ES_W_MATRIX upload opt_rollup (s : World) :
  ∃ rest,
    emitted (handle_upload ES_W_MATRIX (Some upload) opt_rollup s)
    = emitted (pipeline ES_W_MATRIX upload opt_rollup s) ++ rest
    ∧ Forall (closing_event (ctx s)) rest.
Proof.
  destruct (pipeline_frame ES_W_MATRIX upload opt_rollup s)
    as (_ & _ & _ & _ & Hctx & _). cbv zeta in Hctx.
  destruct (outcome (pipeline ES_W_MATRIX upload opt_rollup s))
    as [[t items]|[err|cls]] eqn:Hp.
  - destruct (handle_upload_returned _ _ _ _ _ _ Hp)
      as (zbuffer & cache & evz & Hevz & _ & ->).
    rewrite emitted_prepend, <- app_assoc. eexists. split; [done|].
    apply Forall_app. split.
    + destruct Hevz as [-> | ->]; by repeat constructor.
    + pose proof (results_closing t zbuffer
        (set_zip_cache (λ _, cache)
           (final (pipeline ES_W_MATRIX upload opt_rollup s)))) as Hc.
      cbn [ctx set_zip_cache] in Hc. by rewrite Hctx in Hc.
  - rewrite (handle_upload_entero _ _ _ _ _ Hp). cbn [emitted].
    eexists. split; [done|]. by repeat constructor.
  - rewrite (handle_upload_other _ _ _ _ _ Hp). cbn [emitted].
    exists []. by rewrite app_nil_r.
Qed.

(** The expanders a run creates, with their [expanded] argument. *)
Definition expanders (evs : list event) : list (string * bool) :=
  omap (λ ev, match ev with
              | Expander label expanded => Some (label, expanded)
              | _ => None
              end) evs.

(** The calls of the core among the calls of a run. *)
Definition core_calls (evs : list event) : list (DataFrame * bool * nat) :=
  omap (λ ev, match ev with
              | TransformTable abd rollup obj _ => Some (abd, rollup, obj)
              | _ => None
              end) evs.

Lemma expanders_app evs1 evs2 :
  expanders (evs1 ++ evs2) = expanders evs1 ++ expanders evs2.
Proof. apply omap_app. Qed.

Lemma core_calls_app evs1 evs2 :
  core_calls (evs1 ++ evs2) = core_calls evs1 ++ core_calls evs2.
Proof. apply omap_app. Qed.

Lemma expanders_log_events c lines : expanders (log_events c lines) = [].
Proof. induction lines as [|message lines IH]; [done|]. exact IH. Qed.

Lemma core_calls_log_events c lines : core_calls (log_events c lines) = [].
Proof. induction lines as [|message lines IH]; [done|]. exact IH. Qed.

Lemma expanders_closing c0 evs :
  Forall (closing_event c0) evs → expanders evs = [].
Proof.
  induction 1 as [|ev evs Hev _ IH]; [done|]. destruct ev; try done; exact IH.
Qed.

Lemma core_calls_closing c0 evs :
  Forall (closing_event c0) evs → core_calls evs = [].
Proof.
  induction 1 as [|ev evs Hev _ IH]; [done|]. destruct ev; try done; exact IH.
Qed.

(** X2.  Every run creates the same three expanders; the upload panel is open
    while there is no upload, the log and the results are open once there is
    one, whether or not the run succeeds. *)
Theorem expanders_follow_upload (inp : Inputs) (s : World) :
  expanders (emitted (script inp s))
  = [(EXPANDER_UPLOAD, negb (bool_decide (is_Some (abd_file inp))));
     (EXPANDER_LOG, bool_decide (is_Some (abd_file inp)));
     (EXPANDER_RESULTS, bool_decide (is_Some (abd_file inp)))].
Proof.
  rewrite script_run, emitted_prepend, expanders_app.
  assert (expanders (emitted (handle_upload (length (heap s)) (abd_file inp)
            (default true (rollup_widget inp)) (prelude_state inp s))) = [])
    as ->.
  { destruct (abd_file inp) as [upload|]; [|done].
    destruct (handle_upload_shape (length (heap s)) upload
                (default true (rollup_widget inp)) (prelude_state inp s))
      as (rest & -> & Hrest).
    rewrite expanders_app, (expanders_closing _ _ Hrest), app_nil_r.
    destruct (pipeline_shape (length (heap s)) upload
                (default true (rollup_widget inp)) (prelude_state inp s))
      as [[-> _]|(abd & lines & _ & ->)]; [done|].
    apply expanders_log_events. }
  rewrite app_nil_r. unfold prelude_events. rewrite !expanders_app.
  by case_decide.
Qed.

Lemma core_calls_prelude (inp : Inputs) (s : World) :
  core_calls (prelude_events inp s) = [].
Proof. unfold prelude_events. rewrite !core_calls_app. by case_decide. Qed.

(** X3.  A run calls the core at most once: once, with the table read from the
    upload, the value of the toggle and the object the cached accessor gives,
    when there is an upload and [read_csv] returns; not at all otherwise. *)
Theorem core_called_once_per_readable_upload (inp : Inputs) (s : World) :
  core_calls (emitted (script inp s))
  = match abd_file inp with
    | Some upload =>
        match read_csv upload tab 0 with
        | Ok abd => [(abd, default true (rollup_widget inp),
                      default (length (heap s)) (es_w_cache s))]
        | Raise _ => []
        end
    | None => []
    end.
Proof.
  rewrite script_run, emitted_prepend, core_calls_app, core_calls_prelude.
  destruct (abd_file inp) as [upload|]; [|done].
  destruct (handle_upload_shape (length (heap s)) upload
              (default true (rollup_widget inp)) (prelude_state inp s))
    as (rest & -> & Hrest).
  rewrite core_calls_app, (core_calls_closing _ _ Hrest), app_nil_r.
  destruct (pipeline_shape (length (heap s)) upload
              (default true (rollup_widget inp)) (prelude_state inp s))
    as [[-> [e ->]]|(abd & lines & -> & ->)]; [done|].
  cbn [app]. change (core_calls (TransformTable ?a ?r ?o ?h :: ?l))
    with ((a, r, o) :: core_calls l).
  by rewrite core_calls_log_events.
Qed.

(** X4.  Without an upload the run stops after the page is laid out: the core
    is not called, the cached accessor and the cached archives are not
    touched, nothing is logged but the date line, and the session flag is
    lowered only if the session had none. *)
Theorem no_upload_leaves_caches_alone (inp : Inputs) (s : World) :
  abd_file inp = None →
  let r := script inp s in
  outcome r = Ok tt
  ∧ core_calls (emitted r) = []
  ∧ logged (emitted r) = ["Date: " +:+ today inp]
  ∧ Forall (λ ev, result_event ev = false) (emitted r)
  ∧ es_w_cache (final r) = es_w_cache s
  ∧ zip_cache (final r) = zip_cache s
  ∧ session_state (final r) !! "uploaded"
    = Some (default false (session_state s !! "uploaded")).
Proof.
  intros Hfile. cbv zeta.
  rewrite script_run, Hfile. cbn [handle_upload]. unfold ret.
  cbn [prepend outcome emitted final]. rewrite app_nil_r.
  split; [done|]. split; [apply core_calls_prelude|].
  split; [apply logged_prelude|].
  split; [apply prelude_events_no_result|]. split; [done|]. split; [done|].
  unfold prelude_state. cbn [session_state set_session_state set_loglines
    set_heap].
  case_decide as Hin.
  - destruct Hin as [b Hb]. by rewrite Hb.
  - rewrite lookup_insert_eq. by rewrite (proj2 (eq_None_not_Some _) Hin).
Qed.

(** *** Failures around the core *)

(** X5.  When the core raises [EnteroException] after it has handed lines to
    the logger, those lines stay on the page, in the log expander and in the
    order they were handed over, and the cause follows them outside the
    expander; this is the whole of what the run adds to the page. *)
Theorem core_failure_keeps_log_on_page
    (inp : Inputs) (s : World) upload abd basis lines err :
  abd_file inp = Some upload →
  read_csv upload tab 0 = Ok abd →
  (heap s ++ [five_es]) !! default (length (heap s)) (es_w_cache s)
  = Some basis →
  core_transform abd (default true (rollup_widget inp)) basis ∅
  = (lines, Raise (EnteroException err)) →
  script inp s
  = MkRun
      (set_loglines (λ ls, ls ++ lines)
         (set_es_w_cache
            (Some (default (length (heap s)) (es_w_cache s)))
            (prelude_state inp s)))
      (prelude_events inp s
       ++ TransformTable abd (default true (rollup_widget inp))
            (default (length (heap s)) (es_w_cache s)) ∅
          :: log_events ExpanderLog lines
       ++ [Write (ctx s) (Text ("Unable to transform: " +:+ err))])
      (Ok tt).
Proof.
  intros Hfile Hread Hbasis Hcore. rewrite script_run, Hfile.
  assert (Hp : pipeline (length (heap s)) upload
                 (default true (rollup_widget inp)) (prelude_state inp s)
    = MkRun
        (set_loglines (λ ls, ls ++ lines)
           (set_es_w_cache
              (Some (default (length (heap s)) (es_w_cache s)))
              (prelude_state inp s)))
        (TransformTable abd (default true (rollup_widget inp))
            (default (length (heap s)) (es_w_cache s)) ∅
          :: log_events ExpanderLog lines)
        (Raise (EnteroException err))).
  { unfold prelude_state in *.
    cbn [heap es_w_cache set_session_state set_loglines set_heap] in *.
    run; cbn [default from_option id] in *; simplify_eq;
      try (match goal with
           | Hx : core_transform _ _ _ _ = (_, _) |- _ =>
               rewrite Hcore in Hx; simplify_eq
           end);
      rewrite ?app_nil_r; f_equal; try world_eq. }
  rewrite (handle_upload_entero _ _ _ _ err) by (by rewrite Hp).
  rewrite Hp. cbn [prepend final emitted]. f_equal; by rewrite <- ?app_assoc.
Qed.

Lemma prepend_prepend {A} evs1 evs2 (r : Run A) :
  prepend evs1 (prepend evs2 r) = prepend (evs1 ++ evs2) r.
Proof. destruct r. cbn [prepend]. by rewrite app_assoc. Qed.

(** A run whose transformation returned goes on to pack and to the results
    section, which starts in the state the pipeline left, but for the cached
    archives, and in the container the run started in. *)
Lemma script_results_section (inp : Inputs) (s : World) upload t items :
  abd_file inp = Some upload →
  outcome (transformation inp upload s) = Ok (t, items) →
  ∃ before zbuffer s2,
    script inp s
    = prepend before
        (catch (show_results t zbuffer s2) on_entero_exception)
    ∧ Forall (λ ev, result_event ev = false ∨ ∃ z, ev = ZipFile z) before
    ∧ (zip_cache_ok s → zbuffer = items ++ [("README.txt", readme_txt)])
    ∧ ctx s2 = ctx s
    ∧ session_state s2 !! "uploaded"
      = Some (default false (session_state s !! "uploaded")).
Proof.
  intros Hfile Hp. rewrite transformation_run, outcome_prepend in Hp.
  destruct (handle_upload_returned _ _ _ _ _ _ Hp)
    as (zbuffer & cache & evz & Hevz & Hz & Hrun).
  destruct (pipeline_frame (length (heap s)) upload
              (default true (rollup_widget inp)) (prelude_state inp s))
    as (Hevs & Hsess & _ & _ & Hctx & _).
  cbv zeta in *.
  exists (prelude_events inp s
          ++ emitted (pipeline (length (heap s)) upload
                        (default true (rollup_widget inp))
                        (prelude_state inp s))
          ++ evz), zbuffer,
    (set_zip_cache (λ _, cache)
       (final (pipeline (length (heap s)) upload
                 (default true (rollup_widget inp)) (prelude_state inp s)))).
  rewrite script_run, Hfile, Hrun.
  split; [|split; [|split; [|split]]].
  - apply prepend_prepend.
  - apply Forall_app. split.
    { eapply Forall_impl; [apply prelude_events_no_result|].
      intros ev Hev. by left. }
    apply Forall_app. split.
    { eapply Forall_impl; [exact Hevs|]. intros ev Hev. left.
      by eapply pipeline_event_no_result. }
    destruct Hevz as [-> | ->]; [constructor|].
    apply Forall_singleton. right. by eexists.
  - intros Hok. rewrite <- zip_entries_eq. apply Hz. intros ??. apply Hok.
  - cbn [ctx set_zip_cache]. exact Hctx.
  - cbn [session_state set_zip_cache]. rewrite Hsess.
    unfold prelude_state. cbn [session_state set_session_state set_loglines
      set_heap].
    case_decide as Hin.
    + destruct Hin as [b Hb]. by rewrite Hb.
    + rewrite lookup_insert_eq. by rewrite (proj2 (eq_None_not_Some _) Hin).
Qed.

(** X6.  An [EnteroException] out of the results section comes after the
    download has been offered: the archive is on the page, the cause is
    written last, and the session flag is not raised. *)
Theorem results_failure_follows_download
    (inp : Inputs) (s : World) upload t items err :
  zip_cache_ok s →
  abd_file inp = Some upload →
  outcome (transformation inp upload s) = Ok (t, items) →
  (∀ res_zip s', outcome (show_results t res_zip s')
                 = Raise (EnteroException err)) →
  let r := script inp s in
  outcome r = Ok tt
  ∧ DownloadButton ExpanderResults DOWNLOAD_LABEL
      (items ++ [("README.txt", readme_txt)]) "apply_es_results.zip"
      ∈ emitted r
  ∧ last (emitted r)
    = Some (Write (ctx s) (Text ("Unable to transform: " +:+ err)))
  ∧ (SetSession "uploaded" true ∉ emitted r)
  ∧ session_state (final r) !! "uploaded"
    = Some (default false (session_state s !! "uploaded")).
Proof.
  intros Hok Hfile Hp Hshow. cbv zeta.
  destruct (script_results_section inp s upload t items Hfile Hp)
    as (before & zbuffer & s2 & -> & Hbefore & Hz & Hctx & Hsess).
  specialize (Hz Hok). subst zbuffer.
  specialize (Hshow (items ++ [("README.txt", readme_txt)]) s2).
  destruct (show_results_raises t _ s2 _ Hshow) as (Hs2 & Hnone).
  destruct (show_results_download t (items ++ [("README.txt", readme_txt)]) s2)
    as (evs & Hd).
  destruct (show_results t (items ++ [("README.txt", readme_txt)]) s2)
    as [s3 evs3 o3].
  cbn [outcome final emitted] in *. subst o3 s3 evs3.
  unfold catch, on_entero_exception, st_write, bind, get, emit.
  cbn [then_ prepend final emitted outcome].
  split; [done|]. split; [|split; [|split]].
  - apply elem_of_app. right. by left.
  - rewrite Hctx, !app_assoc. apply last_snoc.
  - intros [Hin|Hin]%elem_of_app.
    + rewrite Forall_forall in Hbefore.
      by destruct (Hbefore _ Hin) as [?|[z ?]].
    + apply elem_of_app in Hin as [Hin|Hin].
      * rewrite Forall_forall in Hnone. by eapply Hnone.
      * by apply list_elem_of_singleton in Hin.
  - exact Hsess.
Qed.

(** *** The logger, the cached accessor and the archive writer on their own *)

(** What a sequence of [Logger.log] calls leaves behind: every message is
    kept, and those with [to_screen] are written where the call stands. *)
Definition log_call_events (c : container) (call : string * bool)
  : list event :=
  LogCall call.1 call.2 :: (if call.2 then [Write c (Text call.1)] else []).

Lemma for_each_Logger_log (calls : list (string * bool)) (s : World) :
  for_each calls (λ call, Logger_log call.1 call.2) s
  = MkRun (set_loglines (λ ls, ls ++ calls.*1) s)
      (calls ≫= log_call_events (ctx s)) (Ok tt).
Proof.
  revert s. induction calls as [|[message to_screen] calls IH]; intros s.
  - unfold set_loglines. simpl. by rewrite app_nil_r, World_eta.
  - cbn [for_each]. unfold bind at 1.
    unfold Logger_log at 1, st_write, bind, emit, modify, get, ret.
    destruct to_screen; cbn [then_ prepend final emitted outcome fst snd];
      rewrite IH; unfold set_loglines, log_call_events;
      cbn [prepend heap es_w_cache zip_cache session_state loglines ctx
           fst snd fmap list_fmap mbind list_bind app];
      by rewrite <- app_assoc.
Qed.

(** The elements written to the page, with the container of each. *)
Definition written (evs : list event) : list (container * payload) :=
  omap (λ ev, match ev with Write c p => Some (c, p) | _ => None end) evs.

Lemma written_app evs1 evs2 :
  written (evs1 ++ evs2) = written evs1 ++ written evs2.
Proof. apply omap_app. Qed.

Lemma written_log_calls c (calls : list (string * bool)) :
  written (calls ≫= log_call_events c)
  = (λ call, (c, Text call.1)) <$> filter (λ call, call.2 = true) calls.
Proof.
  induction calls as [|[message to_screen] calls IH]; [done|].
  cbn [mbind list_bind]. rewrite written_app, IH. rewrite filter_cons.
  unfold log_call_events. by destruct to_screen.
Qed.

Lemma logged_log_calls c (calls : list (string * bool)) :
  logged (calls ≫= log_call_events c) = calls.*1.
Proof.
  induction calls as [|[message to_screen] calls IH]; [done|].
  cbn [mbind list_bind]. rewrite logged_app, IH.
  unfold log_call_events. by destruct to_screen.
Qed.

(** X7.  A new [Logger] forgets what the one before it held; after any calls
    of [log], [to_file] gives the date line and then every message, silent or
    not, one per line and in call order, while the page has received the
    messages logged with [to_screen] and no others. *)
Theorem logger_file_holds_every_message
    (date : string) (calls : list (string * bool)) (s : World) :
  let r := (Logger_init date ;;
            for_each calls (λ call, Logger_log call.1 call.2) ;;
            Logger_to_file) s in
  outcome r
  = Ok (join (String newline EmptyString) (("Date: " +:+ date) :: calls.*1))
  ∧ written (emitted r)
    = (λ call, (ctx s, Text call.1)) <$> filter (λ call, call.2 = true) calls
  ∧ loglines (final r) = ("Date: " +:+ date) :: calls.*1.
Proof.
  cbv zeta. unfold bind at 1. unfold Logger_init, Logger_log, bind, emit,
    modify, ret. cbn [then_ prepend final emitted outcome].
  rewrite for_each_Logger_log. unfold Logger_to_file, bind, get, ret.
  cbn [then_ prepend final emitted outcome loglines set_loglines ctx app].
  rewrite app_nil_r. split; [done|]. split; [|done].
  cbn [written omap]. apply written_log_calls.
Qed.

(** X8.  Once [_get_es_w] has been called, every later call gives the object
    the first one gave, whatever [ES_W_MATRIX] is bound to by then, and
    changes nothing. *)
Theorem get_es_w_keeps_first_object (first later : nat) (s : World) :
  let r := _get_es_w first s in
  outcome r = Ok (default first (es_w_cache s))
  ∧ emitted r = []
  ∧ _get_es_w later (final r)
    = MkRun (final r) [] (Ok (default first (es_w_cache s))).
Proof.
  cbv zeta. unfold _get_es_w, bind, get, ret, modify.
  cbn [then_ prepend final emitted outcome].
  destruct (es_w_cache s) as [obj|] eqn:Hcache;
    cbn [then_ prepend final emitted outcome es_w_cache set_es_w_cache
         default from_option id app];
    by rewrite ?Hcache.
Qed.

(** A list of items the process has packed before is not packed again. *)
Lemma _zip_items_hit (items : list (string * string)) (s : World) zbuffer :
  zip_cache s !! items = Some zbuffer →
  _zip_items items s = MkRun s [] (Ok zbuffer).
Proof.
  intros Hz. unfold _zip_items, bind, get, ret.
  cbn [then_ prepend]. rewrite Hz. by cbn [final emitted outcome app].
Qed.

(** [_zip_items] keeps what it returns, and touches nothing but its cache
    entry for the items it was given. *)
Lemma _zip_items_kept (items : list (string * string)) (s : World) :
  ∃ zbuffer,
    outcome (_zip_items items s) = Ok zbuffer
    ∧ final (_zip_items items s)
      = set_zip_cache (λ c, <[items := zbuffer]> c) s
    ∧ Forall (λ ev, ev = ZipFile zbuffer) (emitted (_zip_items items s)).
Proof.
  destruct (zip_cache s !! items) as [zbuffer|] eqn:Hz.
  - rewrite (_zip_items_hit items s zbuffer Hz). cbn [final outcome emitted].
    exists zbuffer. split; [done|]. split; [|constructor].
    unfold set_zip_cache. rewrite insert_id by done. by rewrite World_eta.
  - unfold _zip_items, bind, get, ret, emit, modify.
    cbn [then_ prepend]. rewrite Hz. cbn [then_ prepend app final outcome emitted].
    eexists. split; [done|]. split; [done|]. by repeat constructor.
Qed.

(** X9.  A second call of [_zip_items] with the same items is answered from
    the cache: the body does not run, the archive is the one the first call
    gave, and nothing changes.  The first call leaves the archives kept for
    other lists of items alone. *)
Theorem zip_items_second_call_is_cached
    (items : list (string * string)) (s : World) :
  let r := _zip_items items s in
  ∃ zbuffer,
    outcome r = Ok zbuffer
    ∧ _zip_items items (final r) = MkRun (final r) [] (Ok zbuffer)
    ∧ (∀ others, others ≠ items →
         zip_cache (final r) !! others = zip_cache s !! others).
Proof.
  cbv zeta. destruct (_zip_items_kept items s) as (zbuffer & Hout & Hfin & _).
  exists zbuffer. split; [done|]. rewrite Hfin. split.
  - apply _zip_items_hit. cbn [zip_cache set_zip_cache].
    apply lookup_insert_eq.
  - intros others Hne. cbn [zip_cache set_zip_cache].
    by rewrite lookup_insert_ne.
Qed.

(** X10.  The items of the list literal are evaluated from left to right: when
    an artifact cannot be had, the exception is that of the first one that
    fails, and the ones after it are not looked at. *)
Theorem to_items_first_failure
    (parts : list (string * result DataFrame)) (e : exn) :
  to_items parts = Raise e ↔
  ∃ before name after,
    parts = before ++ (name, Raise e) :: after
    ∧ Forall (λ part, ∃ df, part.2 = Ok df) before.
Proof.
  split.
  - induction parts as [|[name table] parts IH]; [done|]. cbn [to_items].
    destruct table as [df|e']; cbn [result_bind].
    + destruct (to_items parts) as [rest|e'] eqn:Hrest; cbn [result_bind];
        [done|]. intros [= ->].
      destruct (IH eq_refl) as (before & name' & after & -> & Hbefore).
      exists ((name, Ok df) :: before), name', after. split; [done|].
      constructor; [by eexists|done].
    + intros [= ->]. by exists [], name, parts.
  - intros (before & name & after & -> & Hbefore).
    induction Hbefore as [|[name' table] before [df Hdf] _ IH]; [done|].
    cbn in Hdf. subst table. cbn [app to_items result_bind]. by rewrite IH.
Qed.


(** *** The session flag *)

Lemma prelude_session (inp : Inputs) (s : World) :
  session_state (prelude_state inp s)
  = <["uploaded" := default false (session_state s !! "uploaded")]>
      (session_state s).
Proof.
  unfold prelude_state.
  cbn [session_state set_session_state set_loglines set_heap].
  case_decide as Hin.
  - destruct Hin as [b Hb]. rewrite Hb. cbn [default from_option id].
    by rewrite insert_id.
  - by rewrite (proj2 (eq_None_not_Some _) Hin).
Qed.

Lemma no_result_no_flag (evs : list event) :
  Forall (λ ev, result_event ev = false) evs →
  SetSession "uploaded" true ∉ evs.
Proof.
  intros Hevs Hin. rewrite Forall_forall in Hevs. by apply Hevs in Hin.
Qed.

(** The results section, with the handler around it, either runs to its
    last statement and raises the flag, or leaves the session alone. *)
Lemma results_session (t : Decomposition) (res_zip : Archive) (s : World) :
  let r := catch (show_results t res_zip s) on_entero_exception in
  (session_state (final r) = session_state s
   ∧ SetSession "uploaded" true ∉ emitted r)
  ∨ (session_state (final r) = <["uploaded" := true]> (session_state s)
     ∧ SetSession "uploaded" true ∈ emitted r).
Proof.
  cbv zeta. destruct (outcome (show_results t res_zip s)) as [[]|e] eqn:Ho.
  - right.
    destruct (show_results_returns t res_zip s Ho)
      as (weights & fit & h & _ & _ & _ & Hfin & Hev).
    destruct (show_results t res_zip s) as [s3 evs3 o3].
    cbn [final emitted outcome] in *. subst. cbn [catch final emitted].
    split; [done|]. apply elem_of_app. right. apply elem_of_app. right.
    by left.
  - left. destruct (show_results_raises t res_zip s e Ho) as (Hfin & Hnone).
    rewrite Forall_forall in Hnone.
    destruct (show_results t res_zip s) as [s3 evs3 o3].
    cbn [final emitted outcome] in *. subst. destruct e as [err|cls].
    + cbn [catch]. unfold on_entero_exception, st_write, bind, get, emit.
      cbn [then_ prepend final emitted]. split; [done|].
      intros [Hin|Hin]%elem_of_app; [by eapply Hnone|].
      by apply list_elem_of_singleton in Hin.
    + cbn [catch final emitted]. split; [done|].
      intros Hin. by eapply Hnone.
Qed.

(** What a run does to the session: it writes [uploaded] and no other key;
    the value it leaves is [True] when it found [True] or reached the last
    statement of the results section, and [False] otherwise. *)
Lemma script_session (inp : Inputs) (s : World) :
  let r := script inp s in
  ∃ b, session_state (final r) = <["uploaded" := b]> (session_state s)
       ∧ (b = true ↔ session_state s !! "uploaded" = Some true
                      ∨ SetSession "uploaded" true ∈ emitted r).
Proof.
  cbv zeta. rewrite script_run, final_prepend, emitted_prepend.
  pose proof (prelude_session inp s) as Hpre.
  pose proof (no_result_no_flag _ (prelude_events_no_result inp s)) as Hnone.
  assert (Hb0 : default false (session_state s !! "uploaded") = true
                ↔ session_state s !! "uploaded" = Some true).
  { destruct (session_state s !! "uploaded") as [[]|]; cbn; split; congruence. }
  destruct (abd_file inp) as [upload|].
  2: { cbn [handle_upload]. unfold ret. cbn [final emitted].
       eexists. split; [exact Hpre|]. rewrite app_nil_r, Hb0. tauto. }
  destruct (pipeline_frame (length (heap s)) upload
              (default true (rollup_widget inp)) (prelude_state inp s))
    as (Hevs & Hsess & _). cbv zeta in *.
  assert (Hnone_p : SetSession "uploaded" true
            ∉ emitted (pipeline (length (heap s)) upload
                         (default true (rollup_widget inp))
                         (prelude_state inp s))).
  { apply no_result_no_flag. eapply Forall_impl; [exact Hevs|].
    apply pipeline_event_no_result. }
  destruct (outcome (pipeline (length (heap s)) upload
                       (default true (rollup_widget inp))
                       (prelude_state inp s)))
    as [[t items]|[err|cls]] eqn:Hp.
  - destruct (handle_upload_returned _ _ _ _ _ _ Hp)
      as (zbuffer & cache & evz & Hevz & _ & ->).
    rewrite final_prepend, emitted_prepend.
    assert (Hnone_z : SetSession "uploaded" true ∉ evz).
    { destruct Hevz as [-> | ->]; [by intros ?%elem_of_nil|].
      by intros ?%list_elem_of_singleton. }
    destruct (results_session t zbuffer
                (set_zip_cache (λ _, cache)
                   (final (pipeline (length (heap s)) upload
                             (default true (rollup_widget inp))
                             (prelude_state inp s)))))
      as [(Hfin & Hno)|(Hfin & Hyes)]; cbv zeta in *;
      rewrite Hfin; cbn [session_state set_zip_cache]; rewrite Hsess, Hpre.
    + eexists. split; [done|]. rewrite Hb0. split; [tauto|].
      intros [?|Hin]; [done|]. exfalso.
      apply elem_of_app in Hin as [Hin|Hin]; [done|].
      apply elem_of_app in Hin as [Hin|Hin]; [|done].
      apply elem_of_app in Hin as [Hin|Hin]; done.
    + exists true. split; [by rewrite insert_insert_eq|].
      split; [|done]. intros _. right.
      apply elem_of_app. right. apply elem_of_app. by right.
  - rewrite (handle_upload_entero _ _ _ _ _ Hp). cbn [final emitted].
    rewrite Hsess, Hpre. eexists. split; [done|]. rewrite Hb0.
    split; [tauto|]. intros [?|Hin]; [done|]. exfalso.
    apply elem_of_app in Hin as [Hin|Hin]; [done|].
    apply elem_of_app in Hin as [Hin|Hin]; [done|].
    by apply list_elem_of_singleton in Hin.
  - rewrite (handle_upload_other _ _ _ _ _ Hp). cbn [final emitted].
    rewrite Hsess, Hpre. eexists. split; [done|]. rewrite Hb0.
    split; [tauto|]. intros [?|Hin]; [done|]. exfalso.
    apply elem_of_app in Hin as [Hin|Hin]; done.
Qed.

(** X12.  Whatever a run does, it leaves every key of the session but
    [uploaded] as it found it, and [uploaded] is set when it ends; it is
    [True] exactly when it was [True] before or the run came to the last
    statement of the results section.  No run takes the flag back. *)
Theorem session_flag_is_never_lowered (inp : Inputs) (s : World) :
  let r := script inp s in
  (∀ key, key ≠ "uploaded" →
          session_state (final r) !! key = session_state s !! key)
  ∧ is_Some (session_state (final r) !! "uploaded")
  ∧ (session_state (final r) !! "uploaded" = Some true
     ↔ session_state s !! "uploaded" = Some true
       ∨ SetSession "uploaded" true ∈ emitted r).
Proof.
  cbv zeta. destruct (script_session inp s) as (b & Hfin & Hb).
  cbv zeta in *. rewrite Hfin. split; [|split].
  - intros key Hne. by rewrite lookup_insert_ne.
  - rewrite lookup_insert_eq. by eexists.
  - rewrite lookup_insert_eq, <- Hb. split; congruence.
Qed.

(** X13.  A session that has once shown results keeps its flag over every
    later run of the process, its own and those of other sessions. *)
Theorem uploaded_flag_stays_raised
    (rqs : list Request) (srv : Server) (k : nat) (st : gmap string bool) :
  sessions srv !! k = Some st →
  st !! "uploaded" = Some true →
  ∃ st', sessions (serve_all rqs srv).1 !! k = Some st'
         ∧ st' !! "uploaded" = Some true.
Proof.
  revert srv st. induction rqs as [|rq rqs IH]; intros srv st Hk Hst.
  - by exists st.
  - cbn [serve_all fst snd].
    destruct (decide (session rq = k)) as [Heq|Hne].
    + eapply (IH _ (session_state (final (script (inputs rq)
                 (set_session_state (λ _, default ∅ (sessions srv !! session rq))
                    (process srv)))))).
      * unfold serve. cbn [fst sessions]. rewrite Heq. apply lookup_insert_eq.
      * destruct (script_session (inputs rq)
                    (set_session_state
                       (λ _, default ∅ (sessions srv !! session rq))
                       (process srv))) as (b & Hfin & Hb).
        cbv zeta in *. rewrite Hfin, lookup_insert_eq. f_equal. apply Hb.
        left. cbn [session_state set_session_state]. by rewrite Heq, Hk.
    + apply (IH _ st); [|done]. unfold serve. cbn [fst sessions].
      by rewrite lookup_insert_ne.
Qed.

(** *** Reruns *)

Lemma emitted_catch {A} (r : Run A) (handler : string → M A) :
  ∃ more, emitted (catch r handler) = emitted r ++ more.
Proof.
  destruct r as [s evs [a|[err|cls]]]; cbn [catch emitted].
  - exists []. by rewrite app_nil_r.
  - rewrite emitted_prepend. by eexists.
  - exists []. by rewrite app_nil_r.
Qed.

(** The [try] statement of a run whose pipeline returned: the items are
    handed to [_zip_items] and its archive to the results section. *)
Lemma handle_upload_packed ES_W_MATRIX upload opt_rollup (s : World) t items :
  outcome (pipeline ES_W_MATRIX upload opt_rollup s) = Ok (t, items) →
  ∃ zbuffer,
    let p := pipeline ES_W_MATRIX upload opt_rollup s in
    let s2 := set_zip_cache (λ c, <[items := zbuffer]> c) (final p) in
    outcome (_zip_items items (final p)) = Ok zbuffer
    ∧ handle_upload ES_W_MATRIX (Some upload) opt_rollup s
      = prepend (emitted p ++ emitted (_zip_items items (final p)))
          (catch (show_results t zbuffer s2) on_entero_exception).
Proof.
  intros Hp. unfold handle_upload, try_except, try_body, bind at 1.
  destruct (pipeline ES_W_MATRIX upload opt_rollup s) as [s1 evs1 o].
  cbn [outcome final emitted] in *. subst o. cbn [then_ fst snd].
  unfold bind.
  destruct (_zip_items_kept items s1) as (zbuffer & Hout & Hfin & _).
  exists zbuffer. split; [done|].
  destruct (_zip_items items s1) as [s2 evz oz].
  cbn [outcome final emitted] in *. subst. cbn [then_ prepend].
  destruct (show_results t zbuffer _) as [s3 evs3 [[]|[err|cls]]];
    cbn [prepend catch]; try done.
  - by rewrite app_assoc.
  - unfold on_entero_exception, st_write, bind, get, emit.
    cbn [then_ prepend]. by rewrite !app_assoc.
  - by rewrite app_assoc.
Qed.

(** The pipeline from its parts: a readable upload, a basis behind the
    reference, a core that returns, a palette that can be set and artifacts
    that can be had make a pipeline that returns. *)
Lemma pipeline_run_ok ES_W_MATRIX upload opt_rollup (s : World)
    abd basis lines t0 t tables :
  read_csv upload tab 0 = Ok abd →
  heap s !! default ES_W_MATRIX (es_w_cache s) = Some basis →
  core_transform abd opt_rollup basis ∅ = (lines, Ok t0) →
  with_colors t0 ES_COLORS = Ok t →
  to_items (artifacts t) = Ok tables →
  outcome (pipeline ES_W_MATRIX upload opt_rollup s)
  = Ok (t, tables
           ++ [("log.txt",
                join (String newline EmptyString) (loglines s ++ lines))]).
Proof.
  intros Hread Hbasis Hcore Hcol Htab.
  destruct (es_w_cache s) as [obj|] eqn:Hcache;
    cbn [default from_option id] in Hbasis.
  all: repeat (progress run_unfold); run_cbn.
  all: rewrite Hread; run_cbn; rewrite ?Hcache; run_cbn.
  all: rewrite Hbasis; run_cbn; cbn [default from_option id].
  all: rewrite Hcore; run_cbn; rewrite for_each_es_log; run_cbn.
  all: rewrite Hcol; run_cbn; rewrite Htab; run_cbn.
  all: done.
Qed.

Lemma script_packed (inp : Inputs) (s : World) upload t items :
  abd_file inp = Some upload →
  outcome (pipeline (length (heap s)) upload (default true (rollup_widget inp))
             (prelude_state inp s)) = Ok (t, items) →
  ∃ zbuffer,
    let p := pipeline (length (heap s)) upload
               (default true (rollup_widget inp)) (prelude_state inp s) in
    outcome (_zip_items items (final p)) = Ok zbuffer
    ∧ script inp s
      = prepend (prelude_events inp s ++ emitted p
                 ++ emitted (_zip_items items (final p)))
          (catch
             (show_results t zbuffer
                (set_zip_cache (λ c, <[items := zbuffer]> c) (final p)))
             on_entero_exception).
Proof.
  intros Hfile Hp. destruct (handle_upload_packed _ _ _ _ _ _ Hp)
    as (zbuffer & Hz & Hrun). cbv zeta in *.
  exists zbuffer. split; [done|].
  by rewrite script_run, Hfile, Hrun, prepend_prepend.
Qed.

(** X14.  A rerun with the same inputs transforms the upload again, to the
    same result and the same items, but does not pack them again: the archive
    it offers is the one the run before it wrote, taken from the cache, which
    the rerun leaves as it is. *)
Theorem rerun_is_served_from_cache
    (inp : Inputs) (s : World) upload t items :
  abd_file inp = Some upload →
  outcome (transformation inp upload s) = Ok (t, items) →
  let r1 := script inp s in
  let r2 := script inp (final r1) in
  outcome (transformation inp upload (final r1)) = Ok (t, items)
  ∧ Forall (λ ev, ∀ z, ev ≠ ZipFile z) (emitted r2)
  ∧ zip_cache (final r2) = zip_cache (final r1)
  ∧ ∃ zbuffer,
      DownloadButton ExpanderResults DOWNLOAD_LABEL zbuffer
        "apply_es_results.zip" ∈ emitted r1
      ∧ DownloadButton ExpanderResults DOWNLOAD_LABEL zbuffer
          "apply_es_results.zip" ∈ emitted r2.
Proof.
  intros Hfile Hp. rewrite transformation_run, outcome_prepend in Hp.
  cbv zeta.
  destruct (script_packed inp s upload t items Hfile Hp)
    as (zbuffer & _ & Hrun1). cbv zeta in Hrun1.
  destruct (pipeline_returns _ _ _ _ _ _ Hp)
    as (abd & basis & lines & t0 & tables
        & Hread & Hbasis & Hcore & Hcol & Htab & Hitems & Hfin & _).
  cbv zeta in *.
  change (es_w_cache (prelude_state inp s)) with (es_w_cache s) in *.
  change (heap (prelude_state inp s)) with (heap s ++ [five_es]) in *.
  change (loglines (prelude_state inp s)) with ["Date: " +:+ today inp] in *.
  set (obj := default (length (heap s)) (es_w_cache s)) in *.
  set (p1 := pipeline (length (heap s)) upload
               (default true (rollup_widget inp)) (prelude_state inp s)) in *.
  destruct (results_frame t zbuffer
              (set_zip_cache (λ c, <[items := zbuffer]> c) (final p1)))
    as (_ & Hheap1 & Hcache1 & Hzip1 & _). cbv zeta in *.
  set (s1 := final (script inp s)) in *.
  assert (Hs1 : heap s1 = heap s ++ [five_es]
                ∧ es_w_cache s1 = Some obj
                ∧ zip_cache s1 !! items = Some zbuffer).
  { unfold s1. rewrite Hrun1, final_prepend, Hheap1, Hcache1, Hzip1.
    cbn [heap es_w_cache zip_cache set_zip_cache]. rewrite Hfin.
    cbn [heap es_w_cache set_loglines set_es_w_cache].
    split; [done|]. split; [done|]. apply lookup_insert_eq. }
  destruct Hs1 as (Hh & Hc & Hz).
  assert (Hp2 : outcome (pipeline (length (heap s1)) upload
                           (default true (rollup_widget inp))
                           (prelude_state inp s1)) = Ok (t, items)).
  { rewrite Hitems.
    refine (pipeline_run_ok (length (heap s1)) upload _
              (prelude_state inp s1) abd basis lines t0 t tables
              Hread _ Hcore Hcol Htab).
    unfold prelude_state.
    cbn [heap es_w_cache set_session_state set_loglines set_heap].
    rewrite Hc. cbn [default from_option id]. rewrite Hh.
    apply lookup_app_l_Some. exact Hbasis. }
  destruct (script_packed inp s1 upload t items Hfile Hp2)
    as (zbuffer2 & Hz2 & Hrun2). cbv zeta in *.
  set (p2 := pipeline (length (heap s1)) upload
               (default true (rollup_widget inp)) (prelude_state inp s1)) in *.
  destruct (pipeline_frame (length (heap s1)) upload
              (default true (rollup_widget inp)) (prelude_state inp s1))
    as (Hevs2 & _ & Hzip2 & _). cbv zeta in *. fold p2 in Hevs2, Hzip2.
  assert (Hhit : _zip_items items (final p2) = MkRun (final p2) [] (Ok zbuffer)).
  { apply _zip_items_hit. by rewrite Hzip2. }
  rewrite Hhit in Hz2, Hrun2. cbn [outcome emitted] in Hz2, Hrun2.
  injection Hz2 as <-.
  destruct (results_frame t zbuffer
              (set_zip_cache (λ c, <[items := zbuffer]> c) (final p2)))
    as (Hres2 & _ & _ & Hzipr2 & _). cbv zeta in *.
  split; [by rewrite transformation_run, outcome_prepend|].
  rewrite Hrun2, emitted_prepend, final_prepend. split; [|split].
  - rewrite app_nil_r. apply Forall_app. split; [apply Forall_app; split|].
    + eapply Forall_impl; [apply prelude_events_no_result|]. by intros [] ?.
    + eapply Forall_impl; [exact Hevs2|]. by intros [] ?.
    + eapply Forall_impl; [exact Hres2|]. by intros [] ?.
  - rewrite Hzipr2. cbn [zip_cache set_zip_cache]. rewrite Hzip2.
    unfold prelude_state.
    cbn [zip_cache set_session_state set_loglines set_heap].
    by apply insert_id.
  - exists zbuffer. split.
    + rewrite Hrun1, emitted_prepend.
      destruct (emitted_catch
                  (show_results t zbuffer
                     (set_zip_cache (λ c, <[items := zbuffer]> c) (final p1)))
                  on_entero_exception) as (more & ->).
      destruct (show_results_download t zbuffer
                  (set_zip_cache (λ c, <[items := zbuffer]> c) (final p1)))
        as (evs & ->).
      apply elem_of_app. right. by left.
    + destruct (emitted_catch
                  (show_results t zbuffer
                     (set_zip_cache (λ c, <[items := zbuffer]> c) (final p2)))
                  on_entero_exception) as (more & ->).
      destruct (show_results_download t zbuffer
                  (set_zip_cache (λ c, <[items := zbuffer]> c) (final p2)))
        as (evs & ->).
      apply elem_of_app. right. by left.
Qed.

(** *** What a run puts on the page *)

(** The calls of a run, in three parts: the prelude, the pipeline, and what
    follows the pipeline. *)
Lemma script_shape (inp : Inputs) (s : World) :
  ∃ mid rest,
    emitted (script inp s) = prelude_events inp s ++ mid ++ rest
    ∧ (mid = [] ∨ ∃ abd lines,
         mid = TransformTable abd (default true (rollup_widget inp))
                 (default (length (heap s)) (es_w_cache s)) ∅
               :: log_events ExpanderLog lines)
    ∧ Forall (closing_event (ctx s)) rest.
Proof.
  rewrite script_run, emitted_prepend.
  destruct (abd_file inp) as [upload|].
  2: { exists [], []. split; [done|]. split; [by left|constructor]. }
  destruct (handle_upload_shape (length (heap s)) upload
              (default true (rollup_widget inp)) (prelude_state inp s))
    as (rest & -> & Hrest).
  eexists _, rest. split; [done|]. split; [|exact Hrest].
  destruct (pipeline_shape (length (heap s)) upload
              (default true (rollup_widget inp)) (prelude_state inp s))
    as [[-> _]|(abd & lines & _ & ->)]; [by left|].
  right. by exists abd, lines.
Qed.

(** The messages written in the log expander. *)
Definition log_panel (evs : list event) : list string :=
  omap (λ ev, match ev with
              | Write ExpanderLog (Text message) => Some message
              | _ => None
              end) evs.

Lemma log_panel_app evs1 evs2 :
  log_panel (evs1 ++ evs2) = log_panel evs1 ++ log_panel evs2.
Proof. apply omap_app. Qed.

Lemma log_panel_log_events lines :
  log_panel (log_events ExpanderLog lines) = lines.
Proof.
  induction lines as [|message lines IH]; [done|].
  unfold log_events in *. cbn [mbind list_bind].
  change (log_panel ([LogCall message true; Write ExpanderLog (Text message)]
                     ++ (lines ≫= λ m, [LogCall m true;
                                         Write ExpanderLog (Text m)]))
          = message :: lines).
  rewrite log_panel_app, IH. done.
Qed.

Lemma log_panel_prelude inp s : log_panel (prelude_events inp s) = [].
Proof. unfold prelude_events. rewrite !log_panel_app. by case_decide. Qed.

Lemma log_panel_closing c0 evs :
  c0 ≠ ExpanderLog → Forall (closing_event c0) evs → log_panel evs = [].
Proof.
  intros Hc0. induction 1 as [|ev evs Hev _ IH]; [done|].
  destruct ev as [| | | | | |c [message|p f]| | | | | |]; try done;
    cbn in Hev; subst; try exact IH.
  cbn [log_panel omap]. destruct c0; try done; exact IH.
Qed.

Lemma logged_closing c0 evs :
  Forall (closing_event c0) evs → logged evs = [].
Proof.
  induction 1 as [|ev evs Hev _ IH]; [done|]. destruct ev; try done; exact IH.
Qed.

(** X15.  The log expander shows the lines of the core and nothing else: every
    message logged in the run but the date line, which is logged with
    [to_screen=False], in the order they were logged, whether the run ends
    with results, with the handler's message or with an exception. *)
Theorem log_panel_shows_core_lines (inp : Inputs) (s : World) :
  ctx s = Page →
  logged (emitted (script inp s))
  = ("Date: " +:+ today inp) :: log_panel (emitted (script inp s)).
Proof.
  intros Hctx. destruct (script_shape inp s) as (mid & rest & -> & Hmid & Hrest).
  rewrite !logged_app, !log_panel_app, logged_prelude, log_panel_prelude.
  rewrite (logged_closing _ _ Hrest).
  assert (Hpage : ctx s ≠ ExpanderLog) by (by rewrite Hctx).
  rewrite (log_panel_closing (ctx s) rest Hpage Hrest).
  rewrite !app_nil_r. cbn [app]. f_equal.
  destruct Hmid as [->|(abd & lines & ->)]; [done|].
  change (logged (TransformTable ?a ?r ?o ?h :: ?l)) with (logged l).
  change (log_panel (TransformTable ?a ?r ?o ?h :: ?l)) with (log_panel l).
  by rewrite logged_log_events, log_panel_log_events.
Qed.

(** The plots of a run, in the order they are put on the page. *)
Definition figures (evs : list event) : list plot :=
  omap (λ ev, match ev with Write _ (Fig p _) => Some p | _ => None end) evs.

Lemma figures_app evs1 evs2 :
  figures (evs1 ++ evs2) = figures evs1 ++ figures evs2.
Proof. apply omap_app. Qed.

Lemma figures_log_events c lines : figures (log_events c lines) = [].
Proof. induction lines as [|message lines IH]; [done|]. exact IH. Qed.

Lemma figures_prelude inp s : figures (prelude_events inp s) = [].
Proof. unfold prelude_events. rewrite !figures_app. by case_decide. Qed.

Lemma figures_results (t : Decomposition) (res_zip : Archive) (s : World) :
  figures (emitted (catch (show_results t res_zip s) on_entero_exception))
  `prefix_of` [RelativeWeight; ModelFit; PCoA].
Proof. run; cbn [figures omap]; by eexists. Qed.

(** X16.  The plots come in one order, weights, model fit, PCoA, and a run
    shows some first part of that list: a plot is on the page only if the ones
    before it are, and none is shown twice. *)
Theorem plots_come_in_order (inp : Inputs) (s : World) :
  figures (emitted (script inp s)) `prefix_of` [RelativeWeight; ModelFit; PCoA].
Proof.
  rewrite script_run, emitted_prepend, figures_app, figures_prelude.
  cbn [app]. destruct (abd_file inp) as [upload|]; [|by eexists].
  assert (Hpipe : figures (emitted (pipeline (length (heap s)) upload
                    (default true (rollup_widget inp)) (prelude_state inp s)))
                  = []).
  { destruct (pipeline_shape (length (heap s)) upload
                (default true (rollup_widget inp)) (prelude_state inp s))
      as [[-> _]|(abd & lines & _ & ->)]; [done|].
    apply figures_log_events. }
  destruct (outcome (pipeline (length (heap s)) upload
                       (default true (rollup_widget inp))
                       (prelude_state inp s)))
    as [[t items]|[err|cls]] eqn:Hp.
  - destruct (handle_upload_returned _ _ _ _ _ _ Hp)
      as (zbuffer & cache & evz & Hevz & _ & ->).
    rewrite emitted_prepend, !figures_app, Hpipe.
    assert (figures evz = []) as -> by (by destruct Hevz as [-> | ->]).
    apply figures_results.
  - rewrite (handle_upload_entero _ _ _ _ _ Hp). cbn [emitted].
    rewrite figures_app, Hpipe. by eexists.
  - rewrite (handle_upload_other _ _ _ _ _ Hp). cbn [emitted].
    rewrite Hpipe. by eexists.
Qed.

(** Markdown rendered as HTML is one of the two constants of the script. *)
Definition html_constant (ev : event) : Prop :=
  match ev with
  | Markdown _ body true => body = hide_streamlit_style ∨ body = spacer_div
  | _ => True
  end.

Lemma html_constant_prelude inp s :
  Forall html_constant (prelude_events inp s).
Proof.
  unfold prelude_events. apply Forall_app. split; [|apply Forall_app; split].
  - repeat (apply Forall_cons; split); try apply Forall_nil; cbn; auto.
  - case_decide; repeat (apply Forall_cons; split); try apply Forall_nil; done.
  - repeat (apply Forall_cons; split); try apply Forall_nil; cbn; auto.
Qed.

(** X17.  Markdown is rendered as HTML for the two constants of the script
    only, the style block and the spacer: no label, no message of the core and
    no text of an exception reaches the page that way. *)
Theorem html_only_from_constants (inp : Inputs) (s : World) :
  Forall (λ ev, ∀ c body, ev = Markdown c body true →
                          body = hide_streamlit_style ∨ body = spacer_div)
    (emitted (script inp s)).
Proof.
  apply (Forall_impl html_constant); [|by intros ev Hev c body ->].
  destruct (script_shape inp s) as (mid & rest & -> & Hmid & Hrest).
  apply Forall_app. split; [apply html_constant_prelude|].
  apply Forall_app. split.
  - destruct Hmid as [->|(abd & lines & ->)]; [constructor|].
    constructor; [done|].
    eapply Forall_impl; [apply (log_events_pipeline 0 true)|].
    by intros [].
  - eapply Forall_impl; [exact Hrest|].
    by intros [c' body' []| | | | | | | | | | | |].
Qed.

(** *** The loader over the life of the process *)

Lemma serve_all_loads (rqs : list Request) (srv : Server) :
  server_ok srv →
  loads (serve_all rqs srv).2
  = seq (length (heap (process srv))) (length rqs)
  ∧ length (heap (process (serve_all rqs srv).1))
    = length (heap (process srv)) + length rqs.
Proof.
  revert srv. induction rqs as [|rq rqs IH]; intros srv Hok.
  - cbn [serve_all fst snd length seq]. split; [done|lia].
  - cbn [serve_all fst snd].
    destruct (serve_frame rq srv Hok) as (Hok1 & Hheap & _ & _ & _ & Hloads).
    cbv zeta in *. destruct (IH _ Hok1) as (IHloads & IHlen).
    rewrite loads_app, Hloads, IHloads, IHlen, Hheap, length_app.
    cbn [length seq app]. split; [|lia].
    f_equal. f_equal. lia.
Qed.

(** X18.  Line 30 is executed by every run: the [n]-th run of the process
    loads the basis anew, as the [n]-th table on the heap, whether or not the
    run goes on to use it; after [n] runs the process holds [n] tables. *)
Theorem basis_is_loaded_by_every_run (rqs : list Request) :
  loads (serve_all rqs boot).2 = seq 0 (length rqs)
  ∧ length (heap (process (serve_all rqs boot).1)) = length rqs.
Proof. exact (serve_all_loads rqs boot boot_ok). Qed.

End app.

Arguments MkRun {_ A}.
Arguments final {_ A}.
Arguments emitted {_ A}.
Arguments outcome {_ A}.

(** ** A small instance, to run the script on *)

Module Demo.

#[local] Instance plain_dialect : Dialect := {|
  to_csv_quoted := λ _ _, EmptyString;
  read_csv_irregular := λ _ _ _, Raise (OtherError "ParserError")
|}.

Definition two_signatures : DataFrame := {|
  index_name := "";
  columns := ["ES_Bact"; "ES_Firm"];
  index := ["f__Bacteroidaceae"; "f__Lachnospiraceae"];
  cells := [["1"; "0"]; ["0"; "1"]]
|}.

(** A core that knows two families: it raises when no row of the upload is
    one of them, and otherwise returns the upload as its result. *)
#[local] Instance toy_core : Core := {|
  Decomposition := DataFrame;
  Figure := string;
  five_es := two_signatures;
  readme_txt := "Enterosignature results";
  core_transform abundance rollup model_w hard_mapping :=
    if forallb (λ taxon, negb (bool_decide (taxon ∈ index model_w)))
         (index abundance)
    then (["Matching taxa"],
          Raise (EnteroException "No taxa matched the model"))
    else (["Matching taxa"; "Transforming"], Ok abundance);
  with_colors d _ := Ok d;
  get_w _ := Ok two_signatures;
  get_h d := Ok d;
  scaled d _ := Ok d;
  parameters_x d := Ok d;
  model_fit d := Ok d;
  quality_series d := Ok d;
  primary_signature d := Ok d;
  representative_signatures d := Ok d;
  monodominant_samples d := Ok d;
  feature_mapping_to_df d := Ok d;
  plot_relative_weight _ := Ok "weights";
  plot_modelfit _ := Ok "fit";
  plot_pcoa _ := Ok "pcoa"
|}.

#[local] Instance labels : Labels := {|
  TITLE := "Enterosignature Transformer";
  UPLOAD_LABEL := "Upload";
  UPLOAD_TOOLTIP := "Abundance table";
  ROLLUP_LABEL := "Rollup";
  ROLLUP_TOOLTIP := "Roll up to family";
  EXPANDER_UPLOAD := "About";
  EXPANDER_LOG := "Log";
  EXPANDER_RESULTS := "Results";
  SUMMARY := "Summary";
  INPUT_FORMAT := "Input format";
  CAVEATS := "Caveats";
  DOWNLOAD_LABEL := "Download";
  RESULTS := "Results";
  WEIGHT_PLOT_TITLE := "Weights";
  WEIGHT_PLOT_CAPTION := "Relative weights";
  MODELFIT_PLOT_TITLE := "Model fit";
  PCOA_PLOT_TITLE := "PCoA"
|}.

Definition one_sample : DataFrame := {|
  index_name := "";
  columns := ["S1"];
  index := ["f__Bacteroidaceae"; "f__Lachnospiraceae"];
  cells := [["3"]; ["1"]]
|}.

Definition unknown_taxa : DataFrame := {|
  index_name := "";
  columns := ["S1"];
  index := ["f__Unknown"];
  cells := [["3"]]
|}.

Definition visit : Inputs :=
  {| today := "2024-05-01"; abd_file := None; rollup_widget := None |}.

Definition good_upload : Inputs :=
  {| today := "2024-05-01";
     abd_file := Some (to_csv one_sample tab);
     rollup_widget := None |}.

Definition bad_upload : Inputs :=
  {| today := "2024-05-01";
     abd_file := Some (to_csv unknown_taxa tab);
     rollup_widget := Some false |}.

Definition fresh : World := process boot.

Example good_upload_text :
  to_csv one_sample tab
  = "" +:+ String tab ("S1" +:+ String newline
      ("f__Bacteroidaceae" +:+ String tab ("3" +:+ String newline
         ("f__Lachnospiraceae" +:+ String tab ("1" +:+ String newline ""))))).
Proof. reflexivity. Qed.

Example good_upload_parses : read_csv (to_csv one_sample tab) tab 0 = Ok one_sample.
Proof. vm_compute. reflexivity. Qed.

Lemma fresh_cache_ok : zip_cache_ok fresh.
Proof. apply boot_ok. Qed.

(** The items a run on [good_upload] hands to [_zip_items]. *)
Definition good_items : Archive :=
  Eval vm_compute in
    match outcome (transformation good_upload (to_csv one_sample tab) fresh) with
    | Ok packed => packed.2
    | Raise _ => []
    end.

Ltac in_list := by repeat (first [left | right]).

Example bad_upload_run :
  emitted (script bad_upload fresh)
  = prelude_events bad_upload fresh
    ++ [TransformTable unknown_taxa false 0 ∅;
        LogCall "Matching taxa" true;
        Write ExpanderLog (Text "Matching taxa");
        Write Page (Text "Unable to transform: No taxa matched the model")].
Proof. vm_compute. reflexivity. Qed.

(** C1 at an upload none of whose taxa the core knows. *)
Lemma entero_exception_halts_without_results_witness :
  abd_file bad_upload = Some (to_csv unknown_taxa tab)
  ∧ outcome (transformation bad_upload (to_csv unknown_taxa tab) fresh)
    = Raise (EnteroException "No taxa matched the model")
  ∧ outcome (script bad_upload fresh) = Ok tt
  ∧ last (emitted (script bad_upload fresh))
    = Some (Write Page (Text "Unable to transform: No taxa matched the model"))
  ∧ Forall (λ ev, result_event ev = false) (emitted (script bad_upload fresh))
  ∧ session_state (final (script bad_upload fresh)) !! "uploaded" = Some false.
Proof.
  assert (Hfile : abd_file bad_upload = Some (to_csv unknown_taxa tab))
    by reflexivity.
  assert (Hraise :
    outcome (transformation bad_upload (to_csv unknown_taxa tab) fresh)
    = Raise (EnteroException "No taxa matched the model"))
    by (vm_compute; reflexivity).
  split; [exact Hfile|]. split; [exact Hraise|].
  destruct (entero_exception_halts_without_results bad_upload fresh _ _
              Hfile Hraise) as (Hout & Hlast & Hnone & _ & Hflag).
  split; [exact Hout|]. split; [exact Hlast|]. split; [exact Hnone|].
  exact Hflag.
Defined.

(** C2 as stated fails: the archive a run offers has a thirteenth entry,
    whose name is none of the twelve. *)
Lemma package_holds_a_thirteenth_entry :
  ∃ data,
    DownloadButton ExpanderResults DOWNLOAD_LABEL data "apply_es_results.zip"
      ∈ emitted (script good_upload fresh)
    ∧ length data = 13
    ∧ data.*1 = artifact_names ++ ["README.txt"]
    ∧ "README.txt" ∉ artifact_names.
Proof.
  exists (good_items ++ [("README.txt", readme_txt)]). split; [|split; [|split]].
  - vm_compute. in_list.
  - reflexivity.
  - reflexivity.
  - intros Hin. vm_compute in Hin.
    repeat (apply elem_of_cons in Hin as [Hin|Hin]; [discriminate Hin|]).
    by apply elem_of_nil in Hin.
Qed.

(** C2, as amended, at [good_upload]. *)
Lemma results_package_contents_witness :
  zip_cache_ok fresh
  ∧ abd_file good_upload = Some (to_csv one_sample tab)
  ∧ outcome (transformation good_upload (to_csv one_sample tab) fresh)
    = Ok (one_sample, good_items)
  ∧ DownloadButton ExpanderResults DOWNLOAD_LABEL
      (good_items ++ [("README.txt", readme_txt)]) "apply_es_results.zip"
      ∈ emitted (script good_upload fresh)
  ∧ good_items.*1 = artifact_names.
Proof.
  assert (Hp : outcome (transformation good_upload (to_csv one_sample tab) fresh)
               = Ok (one_sample, good_items)) by (vm_compute; reflexivity).
  split; [exact fresh_cache_ok|]. split; [reflexivity|]. split; [exact Hp|].
  destruct (results_package_contents good_upload fresh _ _ _
              fresh_cache_ok eq_refl Hp) as (Hin & Hnames & _).
  split; [exact Hin | exact Hnames].
Defined.

(** C6 at [good_upload]: the date line, then the two lines of the core. *)
Lemma log_txt_joins_logged_messages_witness :
  zip_cache_ok fresh
  ∧ DownloadButton ExpanderResults DOWNLOAD_LABEL
      (good_items ++ [("README.txt", readme_txt)]) "apply_es_results.zip"
      ∈ emitted (script good_upload fresh)
  ∧ (good_items ++ [("README.txt", readme_txt)]) !! 11
    = Some ("log.txt",
            join (String newline EmptyString)
              (logged (emitted (script good_upload fresh))))
  ∧ logged (emitted (script good_upload fresh))
    = ["Date: 2024-05-01"; "Matching taxa"; "Transforming"].
Proof.
  assert (Hin : DownloadButton ExpanderResults DOWNLOAD_LABEL
      (good_items ++ [("README.txt", readme_txt)]) "apply_es_results.zip"
      ∈ emitted (script good_upload fresh)) by (vm_compute; in_list).
  split; [exact fresh_cache_ok|]. split; [exact Hin|].
  destruct (log_txt_joins_logged_messages good_upload fresh _ _ _ _
              fresh_cache_ok Hin) as (Hlog & _).
  split; [exact Hlog|]. vm_compute. reflexivity.
Defined.

(** C7 at [good_upload]. *)
Lemma upload_first_column_is_row_index_witness :
  abd_file good_upload = Some (to_csv one_sample tab)
  ∧ regular tab 0 (to_csv one_sample tab) = true
  ∧ data_lines (to_csv one_sample tab)
    = [String tab "S1";
       "f__Bacteroidaceae" +:+ String tab "3";
       "f__Lachnospiraceae" +:+ String tab "1"]
  ∧ ∃ abd model_w,
      read_csv (to_csv one_sample tab) tab 0 = Ok abd
      ∧ TransformTable abd true model_w ∅ ∈ emitted (script good_upload fresh)
      ∧ index abd = ["f__Bacteroidaceae"; "f__Lachnospiraceae"]
      ∧ columns abd = ["S1"].
Proof.
  assert (Hreg : regular tab 0 (to_csv one_sample tab) = true)
    by (vm_compute; reflexivity).
  assert (Hlines : data_lines (to_csv one_sample tab)
    = [String tab "S1";
       "f__Bacteroidaceae" +:+ String tab "3";
       "f__Lachnospiraceae" +:+ String tab "1"]) by (vm_compute; reflexivity).
  split; [reflexivity|]. split; [exact Hreg|]. split; [exact Hlines|].
  destruct (upload_first_column_is_row_index good_upload fresh _ _ _
              eq_refl Hreg Hlines)
    as (abd & model_w & Hread & Hin & _ & Hcols & Hidx & _).
  exists abd, model_w. split; [exact Hread|]. split; [exact Hin|].
  split; [exact Hidx | exact Hcols].
Defined.

(** C9 with no items at all. *)
Lemma zip_items_always_adds_readme_witness :
  zip_cache_ok fresh
  ∧ ∃ zbuffer,
      outcome (_zip_items [] fresh) = Ok zbuffer
      ∧ zbuffer = [("README.txt", readme_txt)].
Proof.
  split; [exact fresh_cache_ok|].
  destruct (zip_items_always_adds_readme [] fresh fresh_cache_ok)
    as (zbuffer & Hrun & Hz & _).
  exists zbuffer. split; [exact Hrun | exact Hz].
Defined.

(** C10 at [good_upload]: one sample, so the PCoA plot is shown. *)
Lemma pcoa_plot_below_500_samples_witness :
  SetSession "uploaded" true ∈ emitted (script good_upload fresh)
  ∧ ∃ upload t items h,
      abd_file good_upload = Some upload
      ∧ outcome (transformation good_upload upload fresh) = Ok (t, items)
      ∧ get_h t = Ok h
      ∧ (plot_shown PCoA (emitted (script good_upload fresh)) = true
         ↔ (shape h).2 < 500)
      ∧ plot_shown RelativeWeight (emitted (script good_upload fresh)) = true
      ∧ plot_shown ModelFit (emitted (script good_upload fresh)) = true.
Proof.
  assert (Hend : SetSession "uploaded" true ∈ emitted (script good_upload fresh))
    by (vm_compute; in_list).
  split; [exact Hend|].
  exact (pcoa_plot_below_500_samples good_upload fresh Hend).
Defined.

(** The cut-off itself: 499 samples get the PCoA plot, 500 do not, and the
    other plots do not depend on it. *)
Definition sample_name (i : nat) : string :=
  String (ascii_of_nat (65 + i / 26))
    (String (ascii_of_nat (65 + i mod 26)) EmptyString).

Definition wide_table (n : nat) : DataFrame := {|
  index_name := "";
  columns := sample_name <$> seq 0 n;
  index := ["f__Bacteroidaceae"];
  cells := [replicate n "1"]
|}.

Definition wide_upload (n : nat) : Inputs :=
  {| today := "2024-05-01";
     abd_file := Some (to_csv (wide_table n) tab);
     rollup_widget := None |}.

Example pcoa_at_499_and_500 :
  plot_shown PCoA (emitted (script (wide_upload 499) fresh)) = true
  ∧ plot_shown PCoA (emitted (script (wide_upload 500) fresh)) = false
  ∧ plot_shown ModelFit (emitted (script (wide_upload 500) fresh)) = true
  ∧ plot_shown RelativeWeight (emitted (script (wide_upload 500) fresh)) = true.
Proof. vm_compute. repeat split. Qed.

(** The objects handed to the core, in the order of the calls. *)
Definition core_objects (evs : list event) : list nat :=
  omap (λ ev, match ev with TransformTable _ _ obj _ => Some obj | _ => None end)
    evs.

(** C5 as stated fails: three runs call the loader three times, and the
    object every call of the core is handed is the one the second run
    loaded, the first run that came to call the cached accessor. *)
Lemma basis_loaded_on_every_run :
  let evs := (serve_all [{| session := 1; inputs := visit |};
                         {| session := 1; inputs := good_upload |};
                         {| session := 2; inputs := good_upload |}] boot).2 in
  loads evs = [0; 1; 2] ∧ core_objects evs = [1; 1].
Proof. vm_compute. split; reflexivity. Qed.


(** *** The further properties, at the same uploads *)

(** An upload [read_csv] refuses: its second line has a field too many. *)
Definition ragged_text : string :=
  "taxon" +:+ String tab ("S1" +:+ String newline
    ("f__Bacteroidaceae" +:+ String tab
       ("3" +:+ String tab ("4" +:+ String newline "")))).

Definition ragged_upload : Inputs :=
  {| today := "2024-05-01";
     abd_file := Some ragged_text;
     rollup_widget := None |}.

(** The parser's exception is not an [EnteroException]: it ends the run. *)
Lemma other_exception_escapes_witness :
  abd_file ragged_upload = Some ragged_text
  ∧ outcome (transformation ragged_upload ragged_text fresh)
    = Raise (OtherError "ParserError")
  ∧ outcome (script ragged_upload fresh) = Raise (OtherError "ParserError")
  ∧ Forall (λ ev, result_event ev = false) (emitted (script ragged_upload fresh)).
Proof.
  assert (Hraise : outcome (transformation ragged_upload ragged_text fresh)
                   = Raise (OtherError "ParserError"))
    by (vm_compute; reflexivity).
  split; [reflexivity|]. split; [exact Hraise|].
  destruct (other_exception_escapes ragged_upload fresh _ _ eq_refl Hraise)
    as (Hout & _ & Hnone & _).
  split; [exact Hout | exact Hnone].
Defined.

(** A first visit: the page is laid out and nothing else happens. *)
Lemma no_upload_leaves_caches_alone_witness :
  abd_file visit = None
  ∧ outcome (script visit fresh) = Ok tt
  ∧ core_calls (emitted (script visit fresh)) = []
  ∧ logged (emitted (script visit fresh)) = ["Date: 2024-05-01"]
  ∧ session_state (final (script visit fresh)) !! "uploaded" = Some false.
Proof.
  split; [reflexivity|].
  destruct (no_upload_leaves_caches_alone visit fresh eq_refl)
    as (Hout & Hcalls & Hlog & _ & _ & _ & Hflag).
  split; [exact Hout|]. split; [exact Hcalls|]. split; [exact Hlog|].
  exact Hflag.
Defined.

(** The core's one line stays in the log expander when it raises. *)
Lemma core_failure_keeps_log_on_page_witness :
  abd_file bad_upload = Some (to_csv unknown_taxa tab)
  ∧ read_csv (to_csv unknown_taxa tab) tab 0 = Ok unknown_taxa
  ∧ (heap fresh ++ [five_es]) !! default (length (heap fresh)) (es_w_cache fresh)
    = Some two_signatures
  ∧ core_transform unknown_taxa false two_signatures ∅
    = (["Matching taxa"], Raise (EnteroException "No taxa matched the model"))
  ∧ emitted (script bad_upload fresh)
    = prelude_events bad_upload fresh
      ++ TransformTable unknown_taxa false 0 ∅
         :: log_events ExpanderLog ["Matching taxa"]
      ++ [Write Page (Text "Unable to transform: No taxa matched the model")].
Proof.
  assert (Hread : read_csv (to_csv unknown_taxa tab) tab 0 = Ok unknown_taxa)
    by (vm_compute; reflexivity).
  assert (Hcore : core_transform unknown_taxa false two_signatures ∅
    = (["Matching taxa"], Raise (EnteroException "No taxa matched the model")))
    by (vm_compute; reflexivity).
  split; [reflexivity|]. split; [exact Hread|]. split; [reflexivity|].
  split; [exact Hcore|].
  exact (f_equal emitted
           (core_failure_keeps_log_on_page bad_upload fresh
              (to_csv unknown_taxa tab) unknown_taxa two_signatures
              ["Matching taxa"] "No taxa matched the model"
              eq_refl Hread eq_refl Hcore)).
Defined.


(** Session 1 has shown results; a visit, and failed uploads in another
    session and in its own, leave its flag raised. *)
Definition after_results : Server :=
  (serve {| session := 1; inputs := good_upload |} boot).1.

Lemma uploaded_flag_stays_raised_witness :
  sessions after_results !! 1 = Some {["uploaded" := true]}
  ∧ ({["uploaded" := true]} : gmap string bool) !! "uploaded" = Some true
  ∧ ∃ st',
      sessions (serve_all [{| session := 1; inputs := visit |};
                           {| session := 2; inputs := bad_upload |};
                           {| session := 1; inputs := bad_upload |}]
                  after_results).1 !! 1 = Some st'
      ∧ st' !! "uploaded" = Some true.
Proof.
  assert (Hst : sessions after_results !! 1 = Some {["uploaded" := true]})
    by (vm_compute; reflexivity).
  assert (Hflag : ({["uploaded" := true]} : gmap string bool) !! "uploaded"
                  = Some true) by (vm_compute; reflexivity).
  split; [exact Hst|]. split; [exact Hflag|].
  exact (uploaded_flag_stays_raised _ after_results 1 _ Hst Hflag).
Defined.

(** [good_upload] twice: the second run writes no archive. *)
Lemma rerun_is_served_from_cache_witness :
  abd_file good_upload = Some (to_csv one_sample tab)
  ∧ outcome (transformation good_upload (to_csv one_sample tab) fresh)
    = Ok (one_sample, good_items)
  ∧ Forall (λ ev, ∀ z, ev ≠ ZipFile z)
      (emitted (script good_upload (final (script good_upload fresh))))
  ∧ zip_cache (final (script good_upload (final (script good_upload fresh))))
    = zip_cache (final (script good_upload fresh)).
Proof.
  assert (Hp : outcome (transformation good_upload (to_csv one_sample tab) fresh)
               = Ok (one_sample, good_items)) by (vm_compute; reflexivity).
  split; [reflexivity|]. split; [exact Hp|].
  destruct (rerun_is_served_from_cache good_upload fresh _ _ _ eq_refl Hp)
    as (_ & Hnone & Hzip & _).
  split; [exact Hnone | exact Hzip].
Defined.

(** The log expander of [good_upload] holds the two lines of the core. *)
Lemma log_panel_shows_core_lines_witness :
  ctx fresh = Page
  ∧ logged (emitted (script good_upload fresh))
    = "Date: 2024-05-01" :: log_panel (emitted (script good_upload fresh))
  ∧ log_panel (emitted (script good_upload fresh))
    = ["Matching taxa"; "Transforming"].
Proof.
  split; [reflexivity|].
  split; [exact (log_panel_shows_core_lines good_upload fresh eq_refl)|].
  vm_compute. reflexivity.
Defined.

End Demo.

(** ** The same instance with a model-fit plot that cannot be drawn *)

Module DemoPlots.

#[local] Existing Instance Demo.plain_dialect.
#[local] Existing Instance Demo.labels.

#[local] Instance no_modelfit : Core := {|
  Decomposition := DataFrame;
  Figure := string;
  five_es := Demo.two_signatures;
  readme_txt := "Enterosignature results";
  core_transform := @core_transform Demo.toy_core;
  with_colors d _ := Ok d;
  get_w _ := Ok Demo.two_signatures;
  get_h d := Ok d;
  scaled d _ := Ok d;
  parameters_x d := Ok d;
  model_fit d := Ok d;
  quality_series d := Ok d;
  primary_signature d := Ok d;
  representative_signatures d := Ok d;
  monodominant_samples d := Ok d;
  feature_mapping_to_df d := Ok d;
  plot_relative_weight _ := Ok "weights";
  plot_modelfit _ := Raise (EnteroException "Nothing to plot");
  plot_pcoa _ := Ok "pcoa"
|}.

Lemma fresh_has_no_archives : zip_cache_ok Demo.fresh.
Proof. apply boot_ok. Qed.

(** The download is offered, the weights are shown, and the handler reports
    the plot that failed; the session flag stays down. *)
Lemma results_failure_follows_download_witness :
  zip_cache_ok Demo.fresh
  ∧ abd_file Demo.good_upload = Some (to_csv Demo.one_sample tab)
  ∧ outcome (transformation Demo.good_upload (to_csv Demo.one_sample tab)
               Demo.fresh)
    = Ok (Demo.one_sample, Demo.good_items)
  ∧ (∀ res_zip s',
       outcome (show_results Demo.one_sample res_zip s')
       = Raise (EnteroException "Nothing to plot"))
  ∧ outcome (script Demo.good_upload Demo.fresh) = Ok tt
  ∧ DownloadButton ExpanderResults DOWNLOAD_LABEL
      (Demo.good_items ++ [("README.txt", readme_txt)]) "apply_es_results.zip"
      ∈ emitted (script Demo.good_upload Demo.fresh)
  ∧ last (emitted (script Demo.good_upload Demo.fresh))
    = Some (Write Page (Text "Unable to transform: Nothing to plot"))
  ∧ session_state (final (script Demo.good_upload Demo.fresh)) !! "uploaded"
    = Some false.
Proof.
  assert (Hp : outcome (transformation Demo.good_upload
                          (to_csv Demo.one_sample tab) Demo.fresh)
               = Ok (Demo.one_sample, Demo.good_items))
    by (vm_compute; reflexivity).
  assert (Hshow : ∀ res_zip s',
            outcome (show_results Demo.one_sample res_zip s')
            = Raise (EnteroException "Nothing to plot"))
    by (intros res_zip s'; reflexivity).
  split; [exact fresh_has_no_archives|]. split; [reflexivity|].
  split; [exact Hp|]. split; [exact Hshow|].
  destruct (results_failure_follows_download Demo.good_upload Demo.fresh _ _ _ _
              fresh_has_no_archives eq_refl Hp Hshow)
    as (Hout & Hin & Hlast & _ & Hflag).
  split; [exact Hout|]. split; [exact Hin|]. split; [exact Hlast|].
  exact Hflag.
Defined.

End DemoPlots.
